(** * ShellCast: configuration, session life cycle and command execution

    A shallow embedding of [config.go], [shellcast.go], [main.go] and
    [interactive.go].  Go strings are
    byte strings ([string]), Go [int]s and [time.Duration]s are [Z], Go maps
    and the file store are [gmap]s, and every call into the operating system
    reads its outcome from an explicit environment.  What the program
    prints on its own standard output and standard error is left out. *)

From Stdlib Require Import ZArith Lia Ascii String.
From stdpp Require Import gmap strings list pretty.

Local Open Scope string_scope.
Local Open Scope Z_scope.

(** ** Results of fallible library calls *)

Inductive res (A : Type) : Type :=
| Ok (a : A)
| Err (msg : string).
Arguments Ok {A} a.
Arguments Err {A} msg.

(** ** config.go *)

Record Config := mkConfig {
  RTMPUrl : string;
  FFmpegPath : string;
  FontSize : Z;
  FontColor : string;
  BackgroundColor : string;
  OutputFile : string;
  ShowTimestamp : bool;
  TimestampFormat : string;
  ScreenWidth : Z;
  ScreenHeight : Z;
  RecordSession : bool;
  RecordPath : string;
  SplitScreen : bool;
  SplitCommands : list string;
  ThemeName : string
}.

Record ThemePreset := mkThemePreset {
  tpName : string;
  tpFontColor : string;
  tpBackgroundColor : string;
  tpBorderColor : string;
  tpHighlightColor : string
}.

(** Every [fmt.Errorf] site of the two files is one constructor; the
    argument is what the format string interpolates. *)
Inductive error :=
| ErrThemeNotFound (themeName : string)
| ErrReadingConfig (cause : string)
| ErrUnmarshalingConfig (cause : string)
| ErrEmptyCommand
| ErrStdoutPipe (cause : string)
| ErrStderrPipe (cause : string)
| ErrStartingCommand (cause : string)
| ErrExit (status : Z)
| ErrAlreadyStreaming
| ErrCreatingTemp (cause : string)
| ErrWritingOutput (cause : string)
| ErrStartingFFmpeg (cause : string)
| ErrNotStreaming
| ErrKillingFFmpeg (cause : string)
| ErrAlreadyRecording
| ErrCreatingRecordDir (cause : string)
| ErrWritingRecord (cause : string)
| ErrNotRecording
| ErrNoCommands.

Definition GetDefaultConfig : Config :=
  {| RTMPUrl := "";
     FFmpegPath := "ffmpeg";
     FontSize := 24;
     FontColor := "white";
     BackgroundColor := "black";
     OutputFile := "";
     ShowTimestamp := false;
     TimestampFormat := "2006-01-02 15:04:05";
     ScreenWidth := 1280;
     ScreenHeight := 720;
     RecordSession := false;
     RecordPath := "./recordings";
     SplitScreen := false;
     SplitCommands := [];
     ThemeName := "default" |}.

Definition GetThemePresets : gmap string ThemePreset :=
  <["default" := mkThemePreset "Default" "white" "black" "gray" "blue"]>
  (<["hacker" := mkThemePreset "Hacker" "lime" "black" "green" "red"]>
  (<["solarized" := mkThemePreset "Solarized" "#839496" "#002b36" "#586e75" "#268bd2"]>
  (<["light" := mkThemePreset "Light" "#222222" "#f9f9f9" "#dddddd" "#0066cc"]>
  (<["monokai" := mkThemePreset "Monokai" "#f8f8f2" "#272822" "#75715e" "#f92672"]>
   ∅)))).

(** [c.ThemeName = ...; c.FontColor = ...; c.BackgroundColor = ...] *)
Definition setTheme (c : Config) (themeName : string) (theme : ThemePreset) : Config :=
  {| RTMPUrl := RTMPUrl c;
     FFmpegPath := FFmpegPath c;
     FontSize := FontSize c;
     FontColor := tpFontColor theme;
     BackgroundColor := tpBackgroundColor theme;
     OutputFile := OutputFile c;
     ShowTimestamp := ShowTimestamp c;
     TimestampFormat := TimestampFormat c;
     ScreenWidth := ScreenWidth c;
     ScreenHeight := ScreenHeight c;
     RecordSession := RecordSession c;
     RecordPath := RecordPath c;
     SplitScreen := SplitScreen c;
     SplitCommands := SplitCommands c;
     ThemeName := themeName |}.

(** The method mutates its receiver: the result pairs the returned error
    with the receiver after the call. *)
Definition ApplyTheme (c : Config) (themeName : string) : option error * Config :=
  match GetThemePresets !! themeName with
  | None => (Some (ErrThemeNotFound themeName), c)
  | Some theme => (None, setTheme c themeName theme)
  end.

(** [os.ReadFile], as far as [LoadConfig] tells its outcomes apart: the
    contents, an error for which [os.IsNotExist] holds, or any other error. *)
Inductive readResult :=
| ReadOk (data : string)
| ReadNotExist
| ReadFailed (cause : string).

(** [json.Unmarshal(data, &config)]: the configuration it leaves behind
    (fields decoded so far overwrite the ones passed in) and its error. *)
Definition unmarshaler := string -> Config -> Config * option string.

Definition LoadConfig (ReadFile : string -> readResult) (Unmarshal : unmarshaler)
    (filePath : string) : Config * option error :=
  let config := GetDefaultConfig in
  match ReadFile filePath with
  | ReadNotExist => (config, None)
  | ReadFailed cause => (config, Some (ErrReadingConfig cause))
  | ReadOk data =>
      match Unmarshal data config with
      | (config', Some cause) => (config', Some (ErrUnmarshalingConfig cause))
      | (config', None) => (config', None)
      end
  end.

(** ** Go library functions called by shellcast.go *)

Definition nl : string := String "010"%char EmptyString.

(** [strings.Split(s, sep)] for a one-byte separator: the pieces between
    the separators, never the empty slice. *)
Fixpoint splitOn (sep : ascii) (s : string) : list string :=
  match s with
  | EmptyString => [EmptyString]
  | String c s' =>
      if Ascii.eqb c sep then EmptyString :: splitOn sep s'
      else match splitOn sep s' with
           | p :: ps => String c p :: ps
           | [] => [String c EmptyString]
           end
  end.

Definition Split (s : string) : list string := splitOn " "%char s.

(** [strings.Repeat] *)
Fixpoint Repeat (s : string) (count : nat) : string :=
  match count with
  | O => ""
  | S n => s +:+ Repeat s n
  end.

(** [bufio.MaxScanTokenSize]: the buffer of a Scanner made by
    [bufio.NewScanner] never grows beyond it. *)
Definition MaxScanTokenSize : Z := 64 * 1024.

(** [dropCR] of bufio/scan.go: one trailing carriage return goes. *)
Fixpoint dropCR (s : string) : string :=
  match s with
  | EmptyString => EmptyString
  | String c EmptyString => if Ascii.eqb c "013"%char then EmptyString else s
  | String c s' => String c (dropCR s')
  end.

(** The byte runs [bufio.ScanLines] sees between the newlines of a stream
    read to its end; a last run without newline counts when it is not empty. *)
Fixpoint lineRuns (segs : list string) : list string :=
  match segs with
  | [] => []
  | [final] => if String.eqb final "" then [] else [final]
  | l :: rest => l :: lineRuns rest
  end.

Definition streamLines (data : string) : list string := lineRuns (splitOn "010"%char data).

(** [for scanner.Scan() { line := scanner.Text(); ... }]: the lines the loop
    body sees.  A run that fills the buffer before its newline arrives makes
    [Scan] return false (bufio.ErrTooLong) and the loop ends there. *)
Fixpoint scanRuns (runs : list string) : list string :=
  match runs with
  | [] => []
  | l :: rest =>
      if MaxScanTokenSize <=? Z.of_nat (String.length l) then []
      else dropCR l :: scanRuns rest
  end.

Definition Scan (data : string) : list string := scanRuns (streamLines data).

(** Times are nanoseconds on the clock [time.Now] reads; durations are
    int64 nanoseconds. *)
Definition Time := Z.
Definition Second : Z := 1000000000.
Definition minDuration : Z := - 2 ^ 63.
Definition maxDuration : Z := 2 ^ 63 - 1.
Definition wrap64 (z : Z) : Z := (z + 2 ^ 63) mod 2 ^ 64 - 2 ^ 63.

(** [t.Sub(u)], saturating. *)
Definition Sub (t u : Time) : Z := Z.max minDuration (Z.min maxDuration (t - u)).

(** [lessThanHalf(x, y)]: [uint64(x)+uint64(x) < uint64(y)]. *)
Definition lessThanHalf (x y : Z) : bool :=
  ((x mod 2 ^ 64 + x mod 2 ^ 64) mod 2 ^ 64 <? y mod 2 ^ 64).

(** [d.Round(m)]: to the nearest multiple of [m], halves away from zero. *)
Definition Round (d m : Z) : Z :=
  if m <=? 0 then d
  else
    let r := Z.rem d m in
    if d <? 0 then
      let r := wrap64 (- r) in
      if lessThanHalf r m then wrap64 (d + r)
      else
        let d1 := wrap64 (d - m + r) in
        if d1 <? d then d1 else minDuration
    else
      if lessThanHalf r m then wrap64 (d - r)
      else
        let d1 := wrap64 (d + m - r) in
        if d1 >? d then d1 else maxDuration.

(** What the program takes from the Go library and its process without
    looking inside. *)
Class Runtime := {
  (** [t.Format(layout)] *)
  timeFormat : Time -> string -> string;
  (** [d.String()] of a [time.Duration] *)
  durationString : Z -> string;
  (** [filepath.Join(dir, file)] *)
  filepathJoin : string -> string -> string;
  (** [os.Args] *)
  osArgs : list string
}.

(** ** The operating system *)

Definition Process := nat.

(** A started child that exits: its process, all it writes to its two
    pipes before it does, and the exit status [cmd.Wait] collects. *)
Record Child := mkChild {
  pid : Process;
  childStdout : string;
  childStderr : string;
  exitStatus : Z
}.

(** Which pipe of the child a line came from. *)
Inductive Origin := Stdout | Stderr.

(** The outcome of each system call an operation makes.  [None] for a call
    that returns only an error means success.  [ExecuteSplitCommands] makes
    an [exec.Cmd] and starts a process for every entry of its list, so what
    its calls return goes by the position of the entry, also for entries
    that are equal; and [cmd.Wait()], which closes both pipes once the
    process has exited, runs beside the two drain goroutines there:
    [cutOff] is the number of bytes a drain had taken from its pipe when
    the pipe was closed under it, [None] when it had taken them all. *)
Record Env := mkEnv {
  clock : nat -> Time;
  createTemp : res string;
  writeFile : string -> option string;
  openAppend : string -> option string;
  remove : string -> option string;
  statNotExist : string -> bool;
  mkdirAll : string -> option string;
  stdoutPipe : list string -> option string;
  stderrPipe : list string -> option string;
  start : list string -> res Child;
  kill : Process -> option string;
  splitStdoutPipe : nat -> list string -> option string;
  splitStderrPipe : nat -> list string -> option string;
  splitStart : nat -> list string -> res Child;
  cutOff : nat -> Origin -> option nat
}.

(** The file store, the number of clock readings so far, the argument
    vectors handed to [cmd.Start] and the processes whose exit [cmd.Wait]
    has collected, latest first. *)
Record World := mkWorld {
  files : gmap string string;
  ticks : nat;
  started : list (list string);
  reaped : list Process
}.

Definition setFiles (w : World) (fs : gmap string string) : World :=
  {| files := fs; ticks := ticks w; started := started w; reaped := reaped w |}.

Definition logStart (argv : list string) (w : World) : World :=
  {| files := files w; ticks := ticks w; started := argv :: started w;
     reaped := reaped w |}.

Definition logWait (p : Process) (w : World) : World :=
  {| files := files w; ticks := ticks w; started := started w;
     reaped := p :: reaped w |}.

(** [time.Now()] *)
Definition Now (e : Env) (w : World) : Time * World :=
  (clock e (ticks w),
   {| files := files w; ticks := S (ticks w); started := started w; reaped := reaped w |}).

(** [os.WriteFile(name, data, 0644)] that succeeded *)
Definition wroteFile (name data : string) (w : World) : World :=
  setFiles w (<[name := data]> (files w)).

(** [appendToFile] *)
Definition appendToFile (e : Env) (filename text : string) (w : World)
    : option string * World :=
  match openAppend e filename with
  | Some cause => (Some cause, w)
  | None =>
      (None, setFiles w (<[filename := default "" (files w !! filename) +:+ text]> (files w)))
  end.

(** ** shellcast.go *)

(** The [mutex] field has no counterpart: the one critical section, the
    append to [outputBuffer], is one step of [stepDrain] below. *)
Record ShellCast := mkShellCast {
  config : Config;
  outputBuffer : string;
  streaming : bool;
  streamProc : option Process;
  recording : bool;
  recordPath : string;
  startTime : Time
}.

Definition State : Type := ShellCast * World.

Definition setOutputFile (c : Config) (name : string) : Config :=
  {| RTMPUrl := RTMPUrl c;
     FFmpegPath := FFmpegPath c;
     FontSize := FontSize c;
     FontColor := FontColor c;
     BackgroundColor := BackgroundColor c;
     OutputFile := name;
     ShowTimestamp := ShowTimestamp c;
     TimestampFormat := TimestampFormat c;
     ScreenWidth := ScreenWidth c;
     ScreenHeight := ScreenHeight c;
     RecordSession := RecordSession c;
     RecordPath := RecordPath c;
     SplitScreen := SplitScreen c;
     SplitCommands := SplitCommands c;
     ThemeName := ThemeName c |}.

Definition setConfig (s : ShellCast) (c : Config) : ShellCast :=
  {| config := c; outputBuffer := outputBuffer s; streaming := streaming s;
     streamProc := streamProc s; recording := recording s;
     recordPath := recordPath s; startTime := startTime s |}.

Definition setOutputBuffer (s : ShellCast) (b : string) : ShellCast :=
  {| config := config s; outputBuffer := b; streaming := streaming s;
     streamProc := streamProc s; recording := recording s;
     recordPath := recordPath s; startTime := startTime s |}.

Definition setStream (s : ShellCast) (p : option Process) (on : bool) : ShellCast :=
  {| config := config s; outputBuffer := outputBuffer s; streaming := on;
     streamProc := p; recording := recording s;
     recordPath := recordPath s; startTime := startTime s |}.

Definition setRecording (s : ShellCast) (on : bool) : ShellCast :=
  {| config := config s; outputBuffer := outputBuffer s; streaming := streaming s;
     streamProc := streamProc s; recording := on;
     recordPath := recordPath s; startTime := startTime s |}.

Definition setRecordPath (s : ShellCast) (path : string) : ShellCast :=
  {| config := config s; outputBuffer := outputBuffer s; streaming := streaming s;
     streamProc := streamProc s; recording := recording s;
     recordPath := path; startTime := startTime s |}.

(** The error of [cmd.Wait()] *)
Definition Wait (c : Child) : option error :=
  if exitStatus c =? 0 then None else Some (ErrExit (exitStatus c)).

(** Where a drain goroutine stands in the body of its
    [for scanner.Scan()] loop: at the scan; with the line formatted,
    before [s.mutex.Lock()]; with the buffer appended to, before the
    streaming check; before the recording check. *)
Inductive Phase :=
| AtScan
| AtLock (formattedLine : string)
| AtStreaming (formattedLine : string)
| AtRecording (formattedLine : string).

(** A drain goroutine: the prefix it puts before each line (none in
    [ExecuteCommand]), the lines its Scanner has yet to yield, and where
    it stands. *)
Record Drain := mkDrain {
  dPrefix : string;
  dLines : list string;
  dPhase : Phase
}.

(** [scanner := bufio.NewScanner(pipe)] at the head of a goroutine *)
Definition newDrain (prefix data : string) : Drain := mkDrain prefix (Scan data) AtScan.

(** One command of [ExecuteSplitCommands] that got started: its process
    and its two drain goroutines. *)
Record Runner := mkRunner {
  rPid : Process;
  rOut : Drain;
  rErr : Drain
}.

Definition drainOf (o : Origin) (r : Runner) : Drain :=
  match o with
  | Stdout => rOut r
  | Stderr => rErr r
  end.

Definition setDrain (o : Origin) (d : Drain) (r : Runner) : Runner :=
  match o with
  | Stdout => mkRunner (rPid r) d (rErr r)
  | Stderr => mkRunner (rPid r) (rOut r) d
  end.

(** [cmd.Wait()] at the end of each goroutine of [ExecuteSplitCommands]
    that started its command; the exit status is dropped. *)
Definition waitRunner (w : World) (r : option Runner) : World :=
  match r with
  | Some r => logWait (rPid r) w
  | None => w
  end.

(** [fmt.Sprintf("[CMD%d] ", idx+1)] *)
Definition cmdPrefix (idx : nat) : string :=
  "[CMD" +:+ pretty (Z.of_nat idx + 1) +:+ "] ".

Section shellcast.
Context {rt : Runtime}.

Definition NewShellCast (e : Env) (cfg : Config) (w : World) : State :=
  let '(t, w1) := Now e w in
  ({| config := cfg; outputBuffer := ""; streaming := false; streamProc := None;
      recording := false; recordPath := ""; startTime := t |}, w1).

Definition formatOutput (e : Env) (s : ShellCast) (w : World) (line : string)
    : string * World :=
  if ShowTimestamp (config s) then
    let '(t, w1) := Now e w in
    let timestamp := timeFormat t (TimestampFormat (config s)) in
    ("[" +:+ timestamp +:+ "] " +:+ line, w1)
  else (line, w).

(** One step of a drain goroutine, the four loops having the same body.
    A step is what no other goroutine can get in between: the scan with
    [formatOutput]; the append to the buffer under the mutex; the append
    to the capture file when streaming; the append to the recording file
    when recording.  Failures of [appendToFile] are dropped.  At the end
    of its pipe the goroutine steps no further. *)
Definition stepDrain (e : Env) (d : Drain) (st : State) : Drain * State :=
  let '(s, w) := st in
  match dPhase d with
  | AtScan =>
      match dLines d with
      | [] => (d, st)
      | line :: rest =>
          let '(formattedLine, w1) := formatOutput e s w (dPrefix d +:+ line) in
          (mkDrain (dPrefix d) rest (AtLock formattedLine), (s, w1))
      end
  | AtLock formattedLine =>
      (mkDrain (dPrefix d) (dLines d) (AtStreaming formattedLine),
       (setOutputBuffer s (outputBuffer s +:+ formattedLine +:+ nl), w))
  | AtStreaming formattedLine =>
      let w1 :=
        if streaming s && negb (String.eqb (OutputFile (config s)) "") then
          snd (appendToFile e (OutputFile (config s)) (formattedLine +:+ nl) w)
        else w in
      (mkDrain (dPrefix d) (dLines d) (AtRecording formattedLine), (s, w1))
  | AtRecording formattedLine =>
      let w1 :=
        if recording s && negb (String.eqb (recordPath s) "") then
          snd (appendToFile e (recordPath s) (formattedLine +:+ nl) w)
        else w in
      (mkDrain (dPrefix d) (dLines d) AtScan, (s, w1))
  end.

Fixpoint stepsDrain (e : Env) (n : nat) (d : Drain) (st : State) : Drain * State :=
  match n with
  | O => (d, st)
  | S n' => let '(d', st') := stepDrain e d st in stepsDrain e n' d' st'
  end.

(** The goroutine runs on to the end of its pipe, four steps a line. *)
Definition finishDrain (e : Env) (d : Drain) (st : State) : State :=
  snd (stepsDrain e (4 * S (length (dLines d))) d st).

(** The two drain goroutines of [ExecuteCommand] up to [wg.Wait()]:
    [sched] names the goroutine that takes the next step, and what it
    leaves undone is done before [wg.Wait()] returns. *)
Fixpoint runDrains (e : Env) (sched : list Origin) (out err : Drain) (st : State) : State :=
  match sched with
  | [] => finishDrain e err (finishDrain e out st)
  | Stdout :: sched' =>
      let '(out', st') := stepDrain e out st in runDrains e sched' out' err st'
  | Stderr :: sched' =>
      let '(err', st') := stepDrain e err st in runDrains e sched' out err' st'
  end.

(** [ExecuteCommand], for a child that exits.  [wg.Wait()] returns when
    both drains are at the end of their pipes and [cmd.Wait()] when the
    child has exited.  A child that has more left to write than its pipe
    holds when a drain stops reading, at a line of [MaxScanTokenSize]
    bytes or more, does not exit and the call does not return: that is
    not a [Child], and of such a run this definition says nothing. *)
Definition ExecuteCommand (e : Env) (sched : list Origin) (command : string)
    (st : State) : option error * State :=
  let '(s, w) := st in
  match Split command with
  | [] => (Some ErrEmptyCommand, st)
  | name :: args =>
      match stdoutPipe e (name :: args) with
      | Some cause => (Some (ErrStdoutPipe cause), st)
      | None =>
          match stderrPipe e (name :: args) with
          | Some cause => (Some (ErrStderrPipe cause), st)
          | None =>
              let w1 := logStart (name :: args) w in
              match start e (name :: args) with
              | Err cause => (Some (ErrStartingCommand cause), (s, w1))
              | Ok cmd =>
                  let '(s2, w2) :=
                    runDrains e sched (newDrain "" (childStdout cmd))
                      (newDrain "" (childStderr cmd)) (s, w1) in
                  (Wait cmd, (s2, logWait (pid cmd) w2))
              end
          end
      end
  end.

Definition createVideoFilter (s : ShellCast) : string :=
  let c := config s in
  let filter :=
    "drawtext=fontfile=/usr/share/fonts/truetype/dejavu/DejaVuSansMono.ttf:fontcolor="
    +:+ FontColor c +:+ ":fontsize=" +:+ pretty (FontSize c) +:+ ":box=1:boxcolor="
    +:+ BackgroundColor c +:+ ":x=20:y=20:text='" +:+ "%{eif\:n\:d}" +:+ "'" in
  if ShowTimestamp c then
    filter +:+ ",drawtext=fontfile=/usr/share/fonts/truetype/dejavu/DejaVuSansMono.ttf:"
    +:+ "fontcolor=" +:+ FontColor c +:+ ":fontsize=" +:+ pretty (FontSize c)
    +:+ ":box=1:boxcolor=" +:+ BackgroundColor c +:+ ":x=w-200:y=20:text='%{localtime}'"
  else filter.

Definition ffmpegArgs (s : ShellCast) : list string :=
  let c := config s in
  ["-re"; "-f"; "concat"; "-safe"; "0"; "-i"; OutputFile c;
   "-vf"; createVideoFilter s; "-c:v"; "libx264"; "-preset"; "ultrafast";
   "-s"; pretty (ScreenWidth c) +:+ "x" +:+ pretty (ScreenHeight c);
   "-f"; "flv"; RTMPUrl c].

Definition StartStreaming (e : Env) (st : State) : option error * State :=
  let '(s, w) := st in
  if streaming s then (Some ErrAlreadyStreaming, st)
  else
    let tmp :=
      if String.eqb (OutputFile (config s)) "" then
        match createTemp e with
        | Err cause => Err cause
        | Ok name =>
            Ok (setConfig s (setOutputFile (config s) name), wroteFile name "" w)
        end
      else Ok (s, w) in
    match tmp with
    | Err cause => (Some (ErrCreatingTemp cause), st)
    | Ok (s1, w1) =>
        match writeFile e (OutputFile (config s1)) with
        | Some cause => (Some (ErrWritingOutput cause), (s1, w1))
        | None =>
            let w2 := wroteFile (OutputFile (config s1)) (outputBuffer s1) w1 in
            let ffmpegPath :=
              if String.eqb (FFmpegPath (config s1)) "" then "ffmpeg"
              else FFmpegPath (config s1) in
            let w3 := logStart (ffmpegPath :: ffmpegArgs s1) w2 in
            match start e (ffmpegPath :: ffmpegArgs s1) with
            | Err cause => (Some (ErrStartingFFmpeg cause), (s1, w3))
            | Ok cmd => (None, (setStream s1 (Some (pid cmd)) true, w3))
            end
        end
    end.

Definition StopStreaming (e : Env) (st : State) : option error * State :=
  let '(s, w) := st in
  match streaming s, streamProc s with
  | true, Some proc =>
      match kill e proc with
      | Some cause => (Some (ErrKillingFFmpeg cause), st)
      | None =>
          let s1 := setStream s None false in
          if negb (String.eqb (OutputFile (config s1)) "") then
            let w1 :=
              match remove e (OutputFile (config s1)) with
              | Some _ => w
              | None => setFiles w (delete (OutputFile (config s1)) (files w))
              end in
            (None, (setConfig s1 (setOutputFile (config s1) ""), w1))
          else (None, (s1, w))
      end
  | _, _ => (Some ErrNotStreaming, st)
  end.

Definition StartRecording (e : Env) (st : State) : option error * State :=
  let '(s, w) := st in
  if recording s then (Some ErrAlreadyRecording, st)
  else
    let mk :=
      if statNotExist e (RecordPath (config s)) then mkdirAll e (RecordPath (config s))
      else None in
    match mk with
    | Some cause => (Some (ErrCreatingRecordDir cause), st)
    | None =>
        let '(t1, w1) := Now e w in
        let timestamp := timeFormat t1 "2006-01-02_15-04-05" in
        let filename := "shellcast_" +:+ timestamp +:+ ".txt" in
        let s1 := setRecordPath s (filepathJoin (RecordPath (config s)) filename) in
        let '(t2, w2) := Now e w1 in
        let header :=
          "ShellCast Recording - Started at "
          +:+ timeFormat t2 (TimestampFormat (config s1)) +:+ nl
          +:+ "Command: " +:+ String.concat " " osArgs +:+ nl
          +:+ Repeat "-" 80 +:+ nl +:+ nl in
        match writeFile e (recordPath s1) with
        | Some cause => (Some (ErrWritingRecord cause), (s1, w2))
        | None => (None, (setRecording s1 true, wroteFile (recordPath s1) header w2))
        end
    end.

(** What [StopRecording] prints after "Duration: ", as a number:
    [time.Since(s.startTime).Round(time.Second)] with [time.Now()] = [now]. *)
Definition footerDuration (s : ShellCast) (now : Time) : Z :=
  Round (Sub now (startTime s)) Second.

Definition StopRecording (e : Env) (st : State) : option error * State :=
  let '(s, w) := st in
  if negb (recording s) then (Some ErrNotRecording, st)
  else
    let '(t1, w1) := Now e w in
    let '(t2, w2) := Now e w1 in
    let footer :=
      nl +:+ nl +:+ Repeat "-" 80 +:+ nl
      +:+ "Recording ended at " +:+ timeFormat t1 (TimestampFormat (config s)) +:+ nl
      +:+ "Duration: " +:+ durationString (footerDuration s t2) +:+ nl in
    match appendToFile e (recordPath s) footer w2 with
    | (Some cause, w3) => (Some (ErrWritingRecord cause), (s, w3))
    | (None, w3) => (None, (setRecording s false, w3))
    end.

(** What the Scanner of a drain goroutine of [ExecuteSplitCommands] gets
    to read of [data], the bytes the child wrote to the pipe: all of them,
    or those the drain had taken when [cmd.Wait()] closed the pipe.  A
    Scanner whose read fails hands out what it holds of an unfinished line
    as its last token, as it does at the end of the stream. *)
Definition received (e : Env) (idx : nat) (o : Origin) (data : string) : string :=
  match cutOff e idx o with
  | None => data
  | Some taken => String.substring 0 taken data
  end.

(** The goroutine of command [idx] up to [cmd.Start()]. *)
Definition spawnRunner (e : Env) (idx : nat) (command : string) (w : World)
    : option Runner * World :=
  let prefix := cmdPrefix idx in
  match Split command with
  | [] => (None, w)
  | name :: args =>
      match splitStdoutPipe e idx (name :: args) with
      | Some _ => (None, w)
      | None =>
          match splitStderrPipe e idx (name :: args) with
          | Some _ => (None, w)
          | None =>
              let w1 := logStart (name :: args) w in
              match splitStart e idx (name :: args) with
              | Err _ => (None, w1)
              | Ok cmd =>
                  (Some (mkRunner (pid cmd)
                           (newDrain prefix (received e idx Stdout (childStdout cmd)))
                           (newDrain prefix (received e idx Stderr (childStderr cmd)))),
                   w1)
              end
          end
      end
  end.

Fixpoint spawnAll (e : Env) (idx : nat) (commands : list string) (w : World)
    : list (option Runner) * World :=
  match commands with
  | [] => ([], w)
  | command :: rest =>
      let '(r, w1) := spawnRunner e idx command w in
      let '(rs, w2) := spawnAll e (S idx) rest w1 in
      (r :: rs, w2)
  end.

(** The drain goroutines of [ExecuteSplitCommands] up to the return of
    the call: [(i, o)] lets the [o] drain of command [i] take its next
    step.  No WaitGroup counts these goroutines, so what [sched] does not
    reach is not done by the time the call returns; a drain that has steps
    left then takes them later, beside whatever the program does next,
    and they are no part of the state the call returns.  The starts come
    first here: they touch nothing a drain reads or writes. *)
Fixpoint runSplit (e : Env) (sched : list (nat * Origin)) (rs : list (option Runner))
    (st : State) : State :=
  match sched with
  | [] => st
  | (i, o) :: sched' =>
      match rs !! i with
      | Some (Some r) =>
          let '(d', st') := stepDrain e (drainOf o r) st in
          runSplit e sched' (<[i := Some (setDrain o d' r)]> rs) st'
      | _ => runSplit e sched' rs st
      end
  end.

Definition ExecuteSplitCommands (e : Env) (sched : list (nat * Origin))
    (commands : list string) (st : State) : option error * State :=
  let '(s, w) := st in
  match commands with
  | [] => (Some ErrNoCommands, st)
  | _ :: _ =>
      let '(rs, w1) := spawnAll e 0 commands w in
      let '(s2, w2) := runSplit e sched rs (s, w1) in
      (None, (s2, fold_left waitRunner rs w2))
  end.

Definition Cleanup (e : Env) (st : State) : State :=
  let st1 := if streaming (fst st) then snd (StopStreaming e st) else st in
  if recording (fst st1) then snd (StopRecording e st1) else st1.

End shellcast.

(** ** The session life cycle as a transition system *)

Inductive Op :=
| OpStartStreaming
| OpStopStreaming
| OpStartRecording
| OpStopRecording
| OpCleanup.

Definition stateConflict (err : error) : bool :=
  match err with
  | ErrAlreadyStreaming | ErrNotStreaming | ErrAlreadyRecording | ErrNotRecording => true
  | _ => false
  end.

Section lifecycle.
Context {rt : Runtime}.

Definition call (e : Env) (op : Op) (st : State) : option error * State :=
  match op with
  | OpStartStreaming => StartStreaming e st
  | OpStopStreaming => StopStreaming e st
  | OpStartRecording => StartRecording e st
  | OpStopRecording => StopRecording e st
  | OpCleanup => (None, Cleanup e st)
  end.

(** The states a session can be in: fresh from [NewShellCast], or one call
    later, whatever the call returned and whatever the system did. *)
Inductive reachable : State -> Prop :=
| reachable_new (e : Env) (cfg : Config) (w : World) :
    reachable (NewShellCast e cfg w)
| reachable_call (e : Env) (op : Op) (st : State) :
    reachable st -> reachable (snd (call e op st)).

End lifecycle.

(** ** The specification's vocabulary *)

#[global] Instance Origin_eq_dec : EqDecision Origin.
Proof. solve_decision. Defined.

(** The lines of one pipe among published lines, in order. *)
Definition linesOf (o : Origin) (ls : list (Origin * string)) : list string :=
  map snd (filter (fun x => fst x = o) ls).


(** The lines a process wrote: the runs between its newlines, without the
    carriage return of a CR LF ending, however long they are. *)
Definition linesWritten (data : string) : list string := map dropCR (streamLines data).

(** No line of the stream fills a Scanner's buffer. *)
Definition shortLines (data : string) : Prop :=
  Forall (fun l => Z.of_nat (String.length l) < MaxScanTokenSize) (streamLines data).

(** The streaming handle and flag agree, and so do the recording path and
    flag. *)
Definition handlesAgree (s : ShellCast) : Prop :=
  (streamProc s <> None <-> streaming s = true) /\
  (recordPath s <> "" <-> recording s = true).

(** What the code keeps of that agreement: the streaming handle and flag
    agree, and a session that is recording has a recording path. *)
Definition handlesTrack (s : ShellCast) : Prop :=
  (streamProc s <> None <-> streaming s = true) /\
  (recording s = true -> recordPath s <> "").



(** The line the next step of a drain appends to the buffer, if any. *)
Definition committing (d : Drain) : list string :=
  match dPhase d with
  | AtLock formattedLine => [formattedLine]
  | _ => []
  end.

(** The steps a drain has to take to the end of its pipe. *)
Definition cost (d : Drain) : nat :=
  (4 * length (dLines d) +
   match dPhase d with
   | AtScan => 0
   | AtLock _ => 3
   | AtStreaming _ => 2
   | AtRecording _ => 1
   end)%nat.





(** Lines one after the other, each followed by a line terminator. *)
Fixpoint terminated (lines : list string) : string :=
  match lines with
  | [] => ""
  | l :: rest => l +:+ nl +:+ terminated rest
  end.

Section vocabulary.
Context {rt : Runtime}.

(** A line under the timestamp policy of [c], formatted at time [t]. *)
Definition formatLine (c : Config) (t : Time) (line : string) : string :=
  if ShowTimestamp c then "[" +:+ timeFormat t (TimestampFormat c) +:+ "] " +:+ line
  else line.

(** [formatted] is [raw] under the timestamp policy of [c], the clock read
    at some time. *)
Definition formats (c : Config) (raw formatted : string) : Prop :=
  exists t : Time, formatted = formatLine c t raw.

(** What a drain has yet to append to the buffer: the line it holds
    formatted, if any, and a formatting of every line left in its pipe. *)
Definition owes (c : Config) (d : Drain) (fls : list string) : Prop :=
  match dPhase d with
  | AtLock formattedLine =>
      exists rest,
        fls = formattedLine :: rest /\
        Forall2 (fun line fl => formats c (dPrefix d +:+ line) fl) (dLines d) rest
  | _ => Forall2 (fun line fl => formats c (dPrefix d +:+ line) fl) (dLines d) fls
  end.



End vocabulary.

(** ** A runtime and a system to run examples on *)

(** Times print as their nanosecond count, durations as a count of whole
    seconds, and paths are joined with a slash. *)
Definition plainRuntime : Runtime :=
  {| timeFormat := fun t _ => pretty t;
     durationString := fun d => pretty (d / Second) +:+ "s";
     filepathJoin := fun dir file => dir +:+ "/" +:+ file;
     osArgs := ["shellcast"; "-interactive"] |}.

(** A line as long as a Scanner's buffer. *)
Definition longLine : string := Repeat "a" (Z.to_nat MaxScanTokenSize).

Definition floodChild : Child := mkChild 14%nat (longLine +:+ nl +:+ "ok" +:+ nl) "" 0.

(** A system on which [echo] prints its arguments, [true] and [false] exit
    with 0 and 1, [flood] prints [longLine] and then "ok", [ffmpeg] runs,
    nothing else can be started, and no file operation fails.  The clock
    advances one second per reading. *)
Definition plainStart (argv : list string) : res Child :=
  match argv with
  | [] => Err "exec: no command"
  | name :: args =>
      if String.eqb name "" then Err "exec: no command"
      else if String.eqb name "echo" then Ok (mkChild 11%nat (String.concat " " args +:+ nl) "" 0)
      else if String.eqb name "true" then Ok (mkChild 12%nat "" "" 0)
      else if String.eqb name "false" then Ok (mkChild 13%nat "" "" 1)
      else if String.eqb name "flood" then Ok floodChild
      else if String.eqb name "ffmpeg" then Ok (mkChild 15%nat "" "" 0)
      else Err "executable file not found in $PATH"
  end.

Definition plainEnv : Env :=
  {| clock := fun n => Z.of_nat n * Second;
     createTemp := Ok "/tmp/shellcast_1.txt";
     writeFile := fun _ => None;
     openAppend := fun _ => None;
     remove := fun _ => None;
     statNotExist := fun _ => false;
     mkdirAll := fun _ => None;
     stdoutPipe := fun _ => None;
     stderrPipe := fun _ => None;
     start := plainStart;
     kill := fun _ => None;
     splitStdoutPipe := fun _ _ => None;
     splitStderrPipe := fun _ _ => None;
     splitStart := fun _ => plainStart;
     cutOff := fun _ _ => None |}.

(** The defaults with timestamps switched on. *)
Definition timestampedConfig : Config :=
  {| RTMPUrl := "";
     FFmpegPath := "ffmpeg";
     FontSize := 24;
     FontColor := "white";
     BackgroundColor := "black";
     OutputFile := "";
     ShowTimestamp := true;
     TimestampFormat := "2006-01-02 15:04:05";
     ScreenWidth := 1280;
     ScreenHeight := 720;
     RecordSession := false;
     RecordPath := "./recordings";
     SplitScreen := false;
     SplitCommands := [];
     ThemeName := "default" |}.




(** A system with the one file "/etc/passwd", where a read of a path
    through that file fails with ENOTDIR. *)
Definition passwdWorld : World :=
  {| files := {["/etc/passwd" := "root:x:0:0:root:/root:/bin/sh" +:+ nl]};
     ticks := 0%nat; started := []; reaped := [] |}.

Definition throughPasswd (path : string) : option string :=
  if String.prefix "/etc/passwd/" path then Some "not a directory" else None.

(** The same system forty seconds later. *)
Definition laterEnv : Env :=
  {| clock := fun n => (40 + Z.of_nat n) * Second;
     createTemp := createTemp plainEnv;
     writeFile := writeFile plainEnv;
     openAppend := openAppend plainEnv;
     remove := remove plainEnv;
     statNotExist := statNotExist plainEnv;
     mkdirAll := mkdirAll plainEnv;
     stdoutPipe := stdoutPipe plainEnv;
     stderrPipe := stderrPipe plainEnv;
     start := start plainEnv;
     kill := kill plainEnv;
     splitStdoutPipe := splitStdoutPipe plainEnv;
     splitStderrPipe := splitStderrPipe plainEnv;
     splitStart := splitStart plainEnv;
     cutOff := cutOff plainEnv |}.

Definition emptyWorld : World :=
  {| files := ∅; ticks := 0%nat; started := []; reaped := [] |}.

(** ** config.go: saving *)

(** The [fmt.Errorf] sites of [SaveConfig]. *)
Inductive saveError :=
| ErrMarshalingConfig (cause : string)
| ErrCreatingDirectory (cause : string)
| ErrWritingConfig (cause : string).

(** [json.MarshalIndent(c, "", "  ")] *)
Definition marshaler := Config -> res string.

Definition SaveConfig (MarshalIndent : marshaler) (Dir : string -> string) (e : Env)
    (c : Config) (filePath : string) (w : World) : option saveError * World :=
  match MarshalIndent c with
  | Err cause => (Some (ErrMarshalingConfig cause), w)
  | Ok data =>
      let dir := Dir filePath in
      let mk := if statNotExist e dir then mkdirAll e dir else None in
      match mk with
      | Some cause => (Some (ErrCreatingDirectory cause), w)
      | None =>
          match writeFile e filePath with
          | Some cause => (Some (ErrWritingConfig cause), w)
          | None => (None, wroteFile filePath data w)
          end
      end
  end.

(** [os.ReadFile] on the file store: [fails] says where the read fails for
    a reason other than the file not being there. *)
Definition osReadFile (fails : string -> option string) (w : World) (path : string)
    : readResult :=
  match fails path with
  | Some cause => ReadFailed cause
  | None =>
      match files w !! path with
      | Some data => ReadOk data
      | None => ReadNotExist
      end
  end.

(** What is claimed of [LoadConfig] for a path that names no file: the
    defaults and no error, whatever the read runs into. *)
Definition missingFileGivesDefaults : Prop :=
  forall (fails : string -> option string) (Unmarshal : unmarshaler) (w : World)
         (filePath : string),
    files w !! filePath = None ->
    LoadConfig (osReadFile fails w) Unmarshal filePath = (GetDefaultConfig, None).

(** ** Go library functions called by main.go and interactive.go *)

(** [strings.SplitN(s, " ", 2)]: [parts[0]], and [parts[1]] when there is
    a space. *)
Fixpoint SplitN2 (s : string) : string * option string :=
  match s with
  | EmptyString => (EmptyString, None)
  | String c s' =>
      if Ascii.eqb c " "%char then (EmptyString, Some s')
      else let '(a, b) := SplitN2 s' in (String c a, b)
  end.

(** [strings.Split(s, sep)] for a separator of one byte or more; [skip]
    counts the bytes of a separator just found that are still ahead. *)
Fixpoint splitSep (sep : string) (skip : nat) (s : string) : list string :=
  match s with
  | EmptyString => [EmptyString]
  | String c s' =>
      match skip with
      | S k => splitSep sep k s'
      | O =>
          if String.prefix sep s then
            EmptyString :: splitSep sep (String.length sep - 1) s'
          else
            match splitSep sep 0 s' with
            | p :: ps => String c p :: ps
            | [] => [String c EmptyString]
            end
      end
  end.

(** [strings.TrimPrefix] *)
Definition TrimPrefix (s prefix : string) : string :=
  if String.prefix prefix s then
    String.substring (String.length prefix) (String.length s - String.length prefix) s
  else s.

(** [strings.TrimSuffix] *)
Definition TrimSuffix (s suffix : string) : string :=
  let n := (String.length s - String.length suffix)%nat in
  if (String.length suffix <=? String.length s)%nat
     && String.eqb (String.substring n (String.length suffix) s) suffix
  then String.substring 0 n s
  else s.

(** What main.go and interactive.go take from the Go library and the
    system without looking inside. *)
Class Host := {
  (** [strings.TrimSpace] *)
  TrimSpace : string -> string;
  (** [strings.ToLower] *)
  ToLower : string -> string;
  (** [fmt.Sscanf(s, "%dx%d", &width, &height)] on zeroed variables: what
      the two variables hold afterwards, and the error *)
  SscanfSize : string -> (Z * Z) * option string;
  (** [fmt.Sscanf(s, "%d", &size)] on a zeroed variable *)
  SscanfInt : string -> Z * option string;
  (** [json.MarshalIndent(c, "", "  ")] *)
  jsonMarshalIndent : marshaler;
  (** [json.Unmarshal] *)
  jsonUnmarshal : unmarshaler;
  (** [filepath.Dir] *)
  filepathDir : string -> string;
  (** where [os.ReadFile] fails for a reason other than a missing file *)
  readFileFails : string -> option string
}.

(** ** Assignments to single fields of the configuration *)

Definition setRTMPUrl (c : Config) (v : string) : Config :=
  mkConfig v (FFmpegPath c) (FontSize c) (FontColor c) (BackgroundColor c) (OutputFile c)
    (ShowTimestamp c) (TimestampFormat c) (ScreenWidth c) (ScreenHeight c)
    (RecordSession c) (RecordPath c) (SplitScreen c) (SplitCommands c) (ThemeName c).

Definition setFFmpegPath (c : Config) (v : string) : Config :=
  mkConfig (RTMPUrl c) v (FontSize c) (FontColor c) (BackgroundColor c) (OutputFile c)
    (ShowTimestamp c) (TimestampFormat c) (ScreenWidth c) (ScreenHeight c)
    (RecordSession c) (RecordPath c) (SplitScreen c) (SplitCommands c) (ThemeName c).

Definition setFontSize (c : Config) (v : Z) : Config :=
  mkConfig (RTMPUrl c) (FFmpegPath c) v (FontColor c) (BackgroundColor c) (OutputFile c)
    (ShowTimestamp c) (TimestampFormat c) (ScreenWidth c) (ScreenHeight c)
    (RecordSession c) (RecordPath c) (SplitScreen c) (SplitCommands c) (ThemeName c).

Definition setFontColor (c : Config) (v : string) : Config :=
  mkConfig (RTMPUrl c) (FFmpegPath c) (FontSize c) v (BackgroundColor c) (OutputFile c)
    (ShowTimestamp c) (TimestampFormat c) (ScreenWidth c) (ScreenHeight c)
    (RecordSession c) (RecordPath c) (SplitScreen c) (SplitCommands c) (ThemeName c).

Definition setBackgroundColor (c : Config) (v : string) : Config :=
  mkConfig (RTMPUrl c) (FFmpegPath c) (FontSize c) (FontColor c) v (OutputFile c)
    (ShowTimestamp c) (TimestampFormat c) (ScreenWidth c) (ScreenHeight c)
    (RecordSession c) (RecordPath c) (SplitScreen c) (SplitCommands c) (ThemeName c).

Definition setShowTimestamp (c : Config) (v : bool) : Config :=
  mkConfig (RTMPUrl c) (FFmpegPath c) (FontSize c) (FontColor c) (BackgroundColor c)
    (OutputFile c) v (TimestampFormat c) (ScreenWidth c) (ScreenHeight c)
    (RecordSession c) (RecordPath c) (SplitScreen c) (SplitCommands c) (ThemeName c).

Definition setTimestampFormat (c : Config) (v : string) : Config :=
  mkConfig (RTMPUrl c) (FFmpegPath c) (FontSize c) (FontColor c) (BackgroundColor c)
    (OutputFile c) (ShowTimestamp c) v (ScreenWidth c) (ScreenHeight c)
    (RecordSession c) (RecordPath c) (SplitScreen c) (SplitCommands c) (ThemeName c).

Definition setScreenSize (c : Config) (width height : Z) : Config :=
  mkConfig (RTMPUrl c) (FFmpegPath c) (FontSize c) (FontColor c) (BackgroundColor c)
    (OutputFile c) (ShowTimestamp c) (TimestampFormat c) width height
    (RecordSession c) (RecordPath c) (SplitScreen c) (SplitCommands c) (ThemeName c).

Definition setConfigRecordPath (c : Config) (v : string) : Config :=
  mkConfig (RTMPUrl c) (FFmpegPath c) (FontSize c) (FontColor c) (BackgroundColor c)
    (OutputFile c) (ShowTimestamp c) (TimestampFormat c) (ScreenWidth c) (ScreenHeight c)
    (RecordSession c) v (SplitScreen c) (SplitCommands c) (ThemeName c).

Definition setThemeName (c : Config) (v : string) : Config :=
  mkConfig (RTMPUrl c) (FFmpegPath c) (FontSize c) (FontColor c) (BackgroundColor c)
    (OutputFile c) (ShowTimestamp c) (TimestampFormat c) (ScreenWidth c) (ScreenHeight c)
    (RecordSession c) (RecordPath c) (SplitScreen c) (SplitCommands c) v.

(** ** main.go: the command line *)

(** The flag variables of [main] after [flag.Parse()], the names
    [flag.Visit] saw, and [flag.Args()]. *)
Module flag.
Record t := mk {
  rtmpUrl : string;
  ffmpegPath : string;
  fontSize : Z;
  fontColor : string;
  bgColor : string;
  interactive : bool;
  configFile : string;
  showTimestamp : bool;
  timestampFormat : string;
  screenSize : string;
  record : bool;
  recordPath : string;
  themeName : string;
  splitMode : bool;
  listThemes : bool;
  flagsSet : gmap string bool;
  args : list string
}.
End flag.

(** [flagsSet[name]]: false for a name that is not in the map. *)
Definition isSet (f : flag.t) (name : string) : bool :=
  default false (flag.flagsSet f !! name).

(** What the system and the scheduler do while one operation runs. *)
Record Turn := mkTurn {
  tEnv : Env;
  tSched : list Origin;
  tSplit : list (nat * Origin)
}.

(** What [reader.ReadString('\n')] returns next: a line, given without its
    newline, or what was read before an error other than [io.EOF]. *)
Inductive readEvent :=
| Line (text : string)
| Failed (partial : string).

(** How [main] ends: after [ListThemes], in [log.Fatalf], or by reaching
    its last statement. *)
Inductive mainEnd :=
| ListedThemes
| Fatal (st : State)
| Returned (st : State).

Section frontend.
Context {rt : Runtime} {host : Host}.

(** [main] from the parsing of the screen size to the last override: the
    configuration [NewShellCast] is given. *)
Definition buildConfig (f : flag.t) (w : World) : Config :=
  let '(width, height) := fst (SscanfSize (flag.screenSize f)) in
  let '(width, height) :=
    if (width <=? 0) || (height <=? 0) then (1280, 720) else (width, height) in
  let config :=
    if negb (String.eqb (flag.configFile f) "") then
      match LoadConfig (osReadFile readFileFails w) jsonUnmarshal (flag.configFile f) with
      | (_, Some _) => GetDefaultConfig
      | (config, None) => config
      end
    else GetDefaultConfig in
  let config :=
    if negb (String.eqb (flag.rtmpUrl f) "") then setRTMPUrl config (flag.rtmpUrl f)
    else config in
  let config :=
    if negb (String.eqb (flag.ffmpegPath f) "") then setFFmpegPath config (flag.ffmpegPath f)
    else config in
  let config := if isSet f "font-size" then setFontSize config (flag.fontSize f) else config in
  let config := if isSet f "font-color" then setFontColor config (flag.fontColor f) else config in
  let config :=
    if isSet f "bg-color" then setBackgroundColor config (flag.bgColor f) else config in
  let config :=
    if isSet f "timestamp" then setShowTimestamp config (flag.showTimestamp f) else config in
  let config :=
    if isSet f "timestamp-format" then setTimestampFormat config (flag.timestampFormat f)
    else config in
  let config := setScreenSize config width height in
  let config :=
    if isSet f "record-path" then setConfigRecordPath config (flag.recordPath f) else config in
  if isSet f "theme" then
    snd (ApplyTheme (setThemeName config (flag.themeName f)) (flag.themeName f))
  else config.

(** ** interactive.go *)

(** The [split] case: the command list cut out of the arguments. *)
Definition splitArgs (args : string) : list string :=
  let quote := String "034"%char EmptyString in
  let commands := splitSep (quote +:+ " " +:+ quote) 0 args in
  let commands := <[0%nat := TrimPrefix (default "" (commands !! 0%nat)) quote]> commands in
  let last := (length commands - 1)%nat in
  <[last := TrimSuffix (default "" (commands !! last)) quote]> commands.

(** One pass of the [switch] of [RunInteractiveMode], for every case but
    [exit] and [quit], with the RTMP URL of [stream] already asked for. *)
Definition dispatch (t : Turn) (cmd args input : string) (st : State) : State :=
  let '(s, w) := st in
  let e := tEnv t in
  if String.eqb cmd "help" then st
  else if String.eqb cmd "stream" then snd (StartStreaming e st)
  else if String.eqb cmd "stop" then snd (StopStreaming e st)
  else if String.eqb cmd "record" then snd (StartRecording e st)
  else if String.eqb cmd "stoprecord" then snd (StopRecording e st)
  else if String.eqb cmd "theme" then
    if String.eqb args "" then st
    else (setConfig s (snd (ApplyTheme (config s) args)), w)
  else if String.eqb cmd "timestamp" then
    if String.eqb args "on" then (setConfig s (setShowTimestamp (config s) true), w)
    else if String.eqb args "off" then (setConfig s (setShowTimestamp (config s) false), w)
    else st
  else if String.eqb cmd "size" then
    if String.eqb args "" then st
    else
      match SscanfSize args with
      | (_, Some _) => st
      | ((width, height), None) => (setConfig s (setScreenSize (config s) width height), w)
      end
  else if String.eqb cmd "split" then
    if String.eqb args "" then st
    else snd (ExecuteSplitCommands e (tSplit t) (splitArgs args) st)
  else if String.eqb cmd "fontsize" then
    if String.eqb args "" then st
    else
      match SscanfInt args with
      | (_, Some _) => st
      | (size, None) => (setConfig s (setFontSize (config s) size), w)
      end
  else if String.eqb cmd "save" then
    let args := if String.eqb args "" then "shellcast_config.json" else args in
    (s, snd (SaveConfig jsonMarshalIndent filepathDir e (config s) args w))
  else if String.eqb cmd "load" then
    let args := if String.eqb args "" then "shellcast_config.json" else args in
    match LoadConfig (osReadFile readFileFails w) jsonUnmarshal args with
    | (_, Some _) => st
    | (config, None) => (setConfig s config, w)
    end
  else snd (ExecuteCommand e (tSched t) input st).

(** [RunInteractiveMode]: [events] is what the reader returns read after
    read, [rest] what it returns with [io.EOF] once they are used up, and
    [turn n] what the system does during the pass that starts with read
    number [n]. *)
Fixpoint RunInteractiveMode (turn : nat -> Turn) (n : nat) (events : list readEvent)
    (rest : string) (st : State) : State :=
  match events with
  | [] => st
  | Failed _ :: events' => RunInteractiveMode turn (S n) events' rest st
  | Line text :: events' =>
      let input := TrimSpace (text +:+ nl) in
      if String.eqb input "" then RunInteractiveMode turn (S n) events' rest st
      else
        let '(part0, part1) := SplitN2 input in
        let cmd := ToLower part0 in
        let args := default "" part1 in
        if String.eqb cmd "exit" || String.eqb cmd "quit" then st
        else if String.eqb cmd "stream" && String.eqb (RTMPUrl (config (fst st))) "" then
          match events' with
          | [] =>
              let rtmpUrl := TrimSpace rest in
              if String.eqb rtmpUrl "" then st
              else dispatch (turn n) cmd args input
                     (setConfig (fst st) (setRTMPUrl (config (fst st)) rtmpUrl), snd st)
          | ev :: events'' =>
              let rtmpUrl :=
                TrimSpace match ev with
                          | Line url => url +:+ nl
                          | Failed partial => partial
                          end in
              if String.eqb rtmpUrl "" then
                RunInteractiveMode turn (S (S n)) events'' rest st
              else
                RunInteractiveMode turn (S (S n)) events'' rest
                  (dispatch (turn n) cmd args input
                     (setConfig (fst st) (setRTMPUrl (config (fst st)) rtmpUrl), snd st))
          end
        else RunInteractiveMode turn (S n) events' rest (dispatch (turn n) cmd args input st)
  end.

(** ** main.go: the run *)

(** [main] after [flag.Parse()].  The signal handler is left out; turns 0
    to 5 are those of [NewShellCast], [StartRecording], [StartStreaming],
    the command or commands, [StopStreaming] and [Cleanup], and the
    interactive mode counts its reads from 6. *)
Definition runMain (turn : nat -> Turn) (f : flag.t) (events : list readEvent)
    (rest : string) (w : World) : mainEnd :=
  if flag.listThemes f then ListedThemes
  else
    let config := buildConfig f w in
    let shellcast := NewShellCast (tEnv (turn 0%nat)) config w in
    let args := flag.args f in
    let hasCommand := negb (length args =? 0)%nat in
    let shellcast :=
      if flag.record f then snd (StartRecording (tEnv (turn 1%nat)) shellcast)
      else shellcast in
    if flag.interactive f then
      Returned (Cleanup (tEnv (turn 5%nat))
                  (RunInteractiveMode turn 6 events rest shellcast))
    else if flag.splitMode f && hasCommand then
      match ExecuteSplitCommands (tEnv (turn 3%nat)) (tSplit (turn 3%nat)) args shellcast with
      | (Some _, st) => Fatal st
      | (None, st) => Returned (Cleanup (tEnv (turn 5%nat)) st)
      end
    else if hasCommand then
      let command := String.concat " " args in
      let streamed :=
        if negb (String.eqb (RTMPUrl config) "") then
          StartStreaming (tEnv (turn 2%nat)) shellcast
        else (None, shellcast) in
      match streamed with
      | (Some _, st) => Fatal st
      | (None, st) =>
          let st := snd (ExecuteCommand (tEnv (turn 3%nat)) (tSched (turn 3%nat)) command st) in
          let st :=
            if streaming (fst st) then snd (StopStreaming (tEnv (turn 4%nat)) st) else st in
          Returned (Cleanup (tEnv (turn 5%nat)) st)
      end
    else Returned (Cleanup (tEnv (turn 5%nat)) shellcast).

End frontend.

(** ** Vocabulary of the further properties *)

(** [s'] is [s] with a buffer that has grown, and nothing else changed. *)
Definition onlyBufferGrows (s s' : ShellCast) : Prop :=
  exists grown, s' = setOutputBuffer s (outputBuffer s +:+ grown).

(** [s'] still has the start time of [s], and a buffer that starts with
    the buffer of [s]. *)
Definition sessionAdvances (s s' : ShellCast) : Prop :=
  startTime s' = startTime s /\
  exists grown, outputBuffer s' = outputBuffer s +:+ grown.

(** The errors of [ExecuteCommand] that mean the command did not start. *)
Definition spawnError (err : error) : bool :=
  match err with
  | ErrStdoutPipe _ | ErrStderrPipe _ | ErrStartingCommand _ => true
  | _ => false
  end.







(** [data] with a newline added at its end when it has a last line that
    lacks one. *)
Fixpoint closeLine (data : string) : string :=
  match data with
  | EmptyString => EmptyString
  | String c EmptyString => if Ascii.eqb c "010"%char then data else String c nl
  | String c data' => String c (closeLine data')
  end.

(** No byte of [data] is a carriage return. *)
Fixpoint noCR (data : string) : bool :=
  match data with
  | EmptyString => true
  | String c data' => negb (Ascii.eqb c "013"%char) && noCR data'
  end.

(** No byte of [s] is a double quote. *)
Fixpoint noQuote (s : string) : bool :=
  match s with
  | EmptyString => true
  | String c s' => negb (Ascii.eqb c "034"%char) && noQuote s'
  end.

Definition dquote : string := String "034"%char EmptyString.

(** The commands each followed by a double quote, with a space and a
    double quote between two of them. *)
Fixpoint quotedTail (commands : list string) : string :=
  match commands with
  | [] => ""
  | [c] => c +:+ dquote
  | c :: rest => c +:+ dquote +:+ " " +:+ dquote +:+ quotedTail rest
  end.

(** The commands each in double quotes, with a space between two of
    them: what is typed after [split]. *)
Definition quoted (commands : list string) : string := dquote +:+ quotedTail commands.

(** The separator the [split] case cuts its arguments at. *)
Definition quoteSpaceQuote : string := dquote +:+ " " +:+ dquote.


Section sinks.
Context {rt : Runtime}.




End sinks.

(** [flag.t] with another [-config]. *)
Definition withConfigFile (f : flag.t) (path : string) : flag.t :=
  flag.mk (flag.rtmpUrl f) (flag.ffmpegPath f) (flag.fontSize f) (flag.fontColor f)
    (flag.bgColor f) (flag.interactive f) path (flag.showTimestamp f)
    (flag.timestampFormat f) (flag.screenSize f) (flag.record f) (flag.recordPath f)
    (flag.themeName f) (flag.splitMode f) (flag.listThemes f) (flag.flagsSet f)
    (flag.args f).

(** [flag.t] as if the flag [name] had not been given. *)
Definition unsetFlag (f : flag.t) (name : string) : flag.t :=
  flag.mk (flag.rtmpUrl f) (flag.ffmpegPath f) (flag.fontSize f) (flag.fontColor f)
    (flag.bgColor f) (flag.interactive f) (flag.configFile f) (flag.showTimestamp f)
    (flag.timestampFormat f) (flag.screenSize f) (flag.record f) (flag.recordPath f)
    (flag.themeName f) (flag.splitMode f) (flag.listThemes f)
    (delete name (flag.flagsSet f)) (flag.args f).

(** The screen size [main] computes from [-size]. *)
Definition screenSizeOf {host : Host} (f : flag.t) : Z * Z :=
  let '(width, height) := fst (SscanfSize (flag.screenSize f)) in
  if (width <=? 0) || (height <=? 0) then (1280, 720) else (width, height).

(** ** A host to run examples on *)

Fixpoint isBlank (s : string) : bool :=
  match s with
  | EmptyString => true
  | String c s' => (Ascii.eqb c " "%char || Ascii.eqb c "010"%char) && isBlank s'
  end.

Fixpoint trimRight (s : string) : string :=
  match s with
  | EmptyString => EmptyString
  | String c s' => if isBlank s then EmptyString else String c (trimRight s')
  end.

Fixpoint trimLeft (s : string) : string :=
  match s with
  | EmptyString => EmptyString
  | String c s' =>
      if Ascii.eqb c " "%char || Ascii.eqb c "010"%char then trimLeft s' else s
  end.

(** Spaces and newlines are trimmed, input is taken to be in lower case
    already, the one size that scans is 1920x1080 and the one number 18,
    every configuration is written as an empty JSON object, which decodes
    to no change, and every path has the directory ".". *)
Definition plainHost : Host :=
  {| TrimSpace := fun s => trimRight (trimLeft s);
     ToLower := fun s => s;
     SscanfSize := fun s =>
       if String.eqb s "1920x1080" then ((1920, 1080), None)
       else ((0, 0), Some "input does not match format");
     SscanfInt := fun s =>
       if String.eqb s "18" then (18, None) else (0, Some "expected integer");
     jsonMarshalIndent := fun _ => Ok "{}";
     jsonUnmarshal := fun data c =>
       if String.eqb data "{}" then (c, None) else (c, Some "invalid character");
     filepathDir := fun _ => ".";
     readFileFails := fun _ => None |}.

Definition plainTurn : Turn := mkTurn plainEnv [] [].

(** The command line [shellcast] with no flag set and no argument. *)
Definition noFlags : flag.t :=
  flag.mk "" "" 24 "white" "black" false "" false "2006-01-02 15:04:05" "1280x720"
    false "./recordings" "default" false false ∅ [].

(** [shellcast -theme hacker -font-color red], and
    [shellcast -record -rtmp rtmp://host/live -ffmpeg nosuch true]. *)
Definition themedFlags : flag.t :=
  flag.mk "" "" 24 "red" "black" false "" false "2006-01-02 15:04:05" "1280x720"
    false "./recordings" "hacker" false false
    (<["theme" := true]> (<["font-color" := true]> ∅)) [].

Definition failingStreamFlags : flag.t :=
  flag.mk "rtmp://host/live" "nosuch" 24 "white" "black" false "" false
    "2006-01-02 15:04:05" "1280x720" true "./recordings" "default" false false
    (<["record" := true]> (<["rtmp" := true]> (<["ffmpeg" := true]> ∅))) ["true"].

(** [shellcast -record echo hi] *)
Definition recordFlags : flag.t :=
  flag.mk "" "" 24 "white" "black" false "" false "2006-01-02 15:04:05" "1280x720"
    true "./recordings" "default" false false (<["record" := true]> ∅) ["echo"; "hi"].

(** A codec for the examples, which keeps the RTMP URL, the font colour
    and the theme name, a line each. *)
Definition linesMarshal : marshaler :=
  fun c => Ok (RTMPUrl c +:+ nl +:+ FontColor c +:+ nl +:+ ThemeName c).

Definition linesUnmarshal : unmarshaler :=
  fun data c =>
    match splitOn "010"%char data with
    | [url; colour; theme] =>
        (setThemeName (setFontColor (setRTMPUrl c url) colour) theme, None)
    | _ => (c, Some "unexpected end of JSON input")
    end.

(** A configuration that differs from the defaults in those three. *)
Definition streamerConfig : Config :=
  setThemeName (setFontColor (setRTMPUrl GetDefaultConfig "rtmp://host/live") "lime")
    "hacker".

(** A session on [plainEnv] that is recording, and one that is streaming. *)
Definition recordingSession : State :=
  snd (StartRecording (rt := plainRuntime) plainEnv
         (NewShellCast plainEnv timestampedConfig emptyWorld)).

Definition streamingSession : State :=
  snd (StartStreaming plainEnv (NewShellCast plainEnv timestampedConfig emptyWorld)).

(** ** Theorems about config.go *)

Lemma GetThemePresets_names (themeName : string) :
  is_Some (GetThemePresets !! themeName) <->
  themeName ∈ ["default"; "hacker"; "solarized"; "light"; "monokai"].
Proof.
  rewrite !elem_of_cons, elem_of_nil. split.
  - unfold GetThemePresets. rewrite !lookup_insert_is_Some, lookup_empty.
    intros H. repeat (destruct H as [H | [_ H]]; [auto 10 |]).
    destruct H as [? H]. discriminate H.
  - intros H. repeat (destruct H as [-> | H]; [by eexists |]). destruct H.
Qed.

(** C9: an unknown theme name makes [ApplyTheme] return an error and leave
    the whole configuration as it was; a preset's name makes it succeed and
    set [ThemeName], [FontColor] and [BackgroundColor] to the name and the
    preset's two colours, every other field keeping its value. *)
Theorem ApplyTheme_frame (c : Config) (themeName : string) :
  match GetThemePresets !! themeName with
  | None =>
      (themeName ∉ ["default"; "hacker"; "solarized"; "light"; "monokai"]) /\
      ApplyTheme c themeName = (Some (ErrThemeNotFound themeName), c)
  | Some theme =>
      let c' := snd (ApplyTheme c themeName) in
      (themeName ∈ ["default"; "hacker"; "solarized"; "light"; "monokai"]) /\
      fst (ApplyTheme c themeName) = None /\
      ThemeName c' = themeName /\
      FontColor c' = tpFontColor theme /\
      BackgroundColor c' = tpBackgroundColor theme /\
      RTMPUrl c' = RTMPUrl c /\
      FFmpegPath c' = FFmpegPath c /\
      FontSize c' = FontSize c /\
      OutputFile c' = OutputFile c /\
      ShowTimestamp c' = ShowTimestamp c /\
      TimestampFormat c' = TimestampFormat c /\
      ScreenWidth c' = ScreenWidth c /\
      ScreenHeight c' = ScreenHeight c /\
      RecordSession c' = RecordSession c /\
      RecordPath c' = RecordPath c /\
      SplitScreen c' = SplitScreen c /\
      SplitCommands c' = SplitCommands c
  end.
Proof.
  pose proof (GetThemePresets_names themeName) as Hnames.
  unfold ApplyTheme.
  destruct (GetThemePresets !! themeName) as [theme|] eqn:Hlook.
  - cbn. split; [apply Hnames; by eexists |]. repeat split.
  - split; [| reflexivity]. intros Hin. apply Hnames in Hin.
    destruct Hin as [? Hin]. discriminate Hin.
Qed.

(** C10 (amended): when the read fails with an error for which
    [os.IsNotExist] holds, [LoadConfig] returns [GetDefaultConfig] and no
    error.  An error comes from a read that fails otherwise, whether or
    not the path names a file, with the defaults untouched, or from
    [json.Unmarshal], with whatever it decoded laid over the defaults. *)
Theorem LoadConfig_defaults (ReadFile : string -> readResult)
    (Unmarshal : unmarshaler) (filePath : string) :
  match ReadFile filePath with
  | ReadNotExist =>
      LoadConfig ReadFile Unmarshal filePath = (GetDefaultConfig, None)
  | ReadFailed cause =>
      LoadConfig ReadFile Unmarshal filePath =
        (GetDefaultConfig, Some (ErrReadingConfig cause))
  | ReadOk data =>
      fst (LoadConfig ReadFile Unmarshal filePath) = fst (Unmarshal data GetDefaultConfig) /\
      snd (LoadConfig ReadFile Unmarshal filePath) =
        ErrUnmarshalingConfig <$> snd (Unmarshal data GetDefaultConfig)
  end.
Proof.
  unfold LoadConfig. destruct (ReadFile filePath) as [data| |cause]; try reflexivity.
  destruct (Unmarshal data GetDefaultConfig) as [c' [cause|]]; split; reflexivity.
Qed.

(** ** Strings *)

Lemma append_cons (x : ascii) (a b : string) : String x a +:+ b = String x (a +:+ b).
Proof. reflexivity. Qed.

Lemma append_assoc (a b c : string) : (a +:+ b) +:+ c = a +:+ b +:+ c.
Proof.
  induction a as [|x a IH]; [reflexivity |].
  rewrite !append_cons. by f_equal.
Qed.

Lemma append_nil_r (a : string) : a +:+ "" = a.
Proof.
  induction a as [|x a IH]; [reflexivity |].
  rewrite append_cons. by f_equal.
Qed.

Lemma terminated_app (a b : list string) :
  terminated (a ++ b) = terminated a +:+ terminated b.
Proof.
  induction a as [|l a IH]; [reflexivity |].
  cbn [app terminated]. by rewrite IH, !append_assoc.
Qed.

(** ** formatOutput and the loop body *)

Section format.
Context {rt : Runtime}.

Lemma formatOutput_formatLine (e : Env) (s : ShellCast) (w : World) (line : string) :
  fst (formatOutput e s w line) = formatLine (config s) (clock e (ticks w)) line.
Proof. unfold formatOutput, formatLine. by destruct (ShowTimestamp (config s)). Qed.

Lemma formatOutput_world (e : Env) (s : ShellCast) (w : World) (line : string) :
  files (snd (formatOutput e s w line)) = files w /\
  started (snd (formatOutput e s w line)) = started w /\
  reaped (snd (formatOutput e s w line)) = reaped w /\
  ticks (snd (formatOutput e s w line)) =
    if ShowTimestamp (config s) then S (ticks w) else ticks w.
Proof. unfold formatOutput. by destruct (ShowTimestamp (config s)). Qed.

Lemma appendToFile_ticks (e : Env) (name text : string) (w : World) :
  ticks (snd (appendToFile e name text w)) = ticks w /\
  started (snd (appendToFile e name text w)) = started w /\
  reaped (snd (appendToFile e name text w)) = reaped w.
Proof. unfold appendToFile. by destruct (openAppend e name). Qed.

(** *** One step of a drain *)

Lemma stepDrain_session (e : Env) (d : Drain) (s : ShellCast) (w : World) :
  outputBuffer (fst (snd (stepDrain e d (s, w)))) =
    outputBuffer s +:+ terminated (committing d) /\
  config (fst (snd (stepDrain e d (s, w)))) = config s.
Proof.
  unfold stepDrain, committing. destruct (dPhase d) as [|fl|fl|fl].
  - destruct (dLines d) as [|l ls]; [| destruct (formatOutput e s w _)];
      cbn; by rewrite append_nil_r.
  - cbn. by rewrite append_nil_r.
  - cbn. by rewrite append_nil_r.
  - cbn. by rewrite append_nil_r.
Qed.

Lemma stepDrain_logs (e : Env) (d : Drain) (st : State) :
  started (snd (snd (stepDrain e d st))) = started (snd st) /\
  reaped (snd (snd (stepDrain e d st))) = reaped (snd st).
Proof.
  destruct st as [s w]. unfold stepDrain. destruct (dPhase d) as [|fl|fl|fl].
  - destruct (dLines d) as [|l ls]; [done |].
    pose proof (formatOutput_world e s w (dPrefix d +:+ l)) as (_ & Hs & Hr & _).
    by destruct (formatOutput e s w _).
  - done.
  - cbn. destruct (_ && _); [| done].
    by destruct (appendToFile_ticks e (OutputFile (config s)) (fl +:+ nl) w) as (_ & -> & ->).
  - cbn. destruct (_ && _); [| done].
    by destruct (appendToFile_ticks e (recordPath s) (fl +:+ nl) w) as (_ & -> & ->).
Qed.

Lemma stepDrain_cost (e : Env) (d : Drain) (st : State) :
  cost (fst (stepDrain e d st)) = pred (cost d).
Proof.
  destruct st as [s w], d as [p ls [|fl|fl|fl]]; unfold stepDrain, cost; cbn.
  - destruct ls as [|l ls]; [done |].
    destruct (formatOutput e s w _). cbn. lia.
  - lia.
  - lia.
  - lia.
Qed.

(** What the drain owes after a step, with what the step appended before
    it, is what it owed before the step. *)
Lemma stepDrain_owes (e : Env) (d : Drain) (s : ShellCast) (w : World) (fls : list string) :
  owes (config s) (fst (stepDrain e d (s, w))) fls ->
  owes (config s) d (committing d ++ fls).
Proof.
  destruct d as [p ls [|fl|fl|fl]]; unfold stepDrain, owes, committing; cbn.
  - destruct ls as [|l ls]; [done |].
    pose proof (formatOutput_formatLine e s w (p +:+ l)) as Hfl.
    destruct (formatOutput e s w _) as [fl w1]. cbn in *.
    intros (rest & -> & Hrest). constructor; [| done].
    by exists (clock e (ticks w)).
  - intros Hrest. by exists fls.
  - done.
  - done.
Qed.

Lemma owes_at_end (c : Config) (d : Drain) (fls : list string) :
  cost d = 0%nat -> owes c d fls <-> fls = [].
Proof.
  unfold cost, owes. destruct (dPhase d); try lia.
  destruct (dLines d); cbn; [| lia]. intros _. split.
  - by inversion 1.
  - intros ->. constructor.
Qed.




(** A drain that takes the steps to its end appends what it owes. *)
Lemma stepsDrain_owes (e : Env) (n : nat) (d : Drain) (s : ShellCast) (w : World) :
  (cost d <= n)%nat ->
  exists fls,
    owes (config s) d fls /\
    outputBuffer (fst (snd (stepsDrain e n d (s, w)))) = outputBuffer s +:+ terminated fls /\
    config (fst (snd (stepsDrain e n d (s, w)))) = config s.
Proof.
  revert d s w. induction n as [|n IH]; intros d s w Hcost.
  - exists []. split; [apply owes_at_end; [lia | done] |]. cbn. by rewrite append_nil_r.
  - cbn [stepsDrain].
    pose proof (stepDrain_session e d s w) as [Hbuf Hcfg].
    pose proof (stepDrain_cost e d (s, w)) as Hc.
    pose proof (stepDrain_owes e d s w) as Howes.
    destruct (stepDrain e d (s, w)) as [d' [s' w']]. cbn [fst snd] in *.
    destruct (IH d' s' w') as (fls & Hfls & Hbuf' & Hcfg'); [lia |].
    exists (committing d ++ fls)%list. rewrite Hcfg in Hfls. split; [by apply Howes |].
    rewrite Hbuf', Hbuf, terminated_app, append_assoc, Hcfg'. done.
Qed.

Lemma finishDrain_owes (e : Env) (d : Drain) (s : ShellCast) (w : World) :
  exists fls,
    owes (config s) d fls /\
    outputBuffer (fst (finishDrain e d (s, w))) = outputBuffer s +:+ terminated fls /\
    config (fst (finishDrain e d (s, w))) = config s.
Proof. apply stepsDrain_owes. unfold cost. destruct (dPhase d); lia. Qed.

(** C4 (amended): with timestamps on, [formatOutput] puts the timestamp
    bracket first; a tag prefix handed to it with the line follows the
    bracket and precedes the raw content, and that is the line a drain
    with a prefix appends to the buffer. *)
Theorem formatOutput_timestamp_before_tag (e : Env) (s : ShellCast) (w : World)
    (prefix raw : string) (rest : list string) :
  ShowTimestamp (config s) = true ->
  let bracket :=
    "[" +:+ timeFormat (clock e (ticks w)) (TimestampFormat (config s)) +:+ "] " in
  fst (formatOutput e s w (prefix +:+ raw)) = bracket +:+ prefix +:+ raw /\
  outputBuffer (fst (snd (stepsDrain e 2 (mkDrain prefix (raw :: rest) AtScan) (s, w)))) =
    outputBuffer s +:+ bracket +:+ prefix +:+ raw +:+ nl.
Proof.
  intros Hts bracket. subst bracket.
  unfold stepsDrain, stepDrain, formatOutput. cbn. rewrite Hts. cbn.
  rewrite !append_assoc. done.
Qed.

End format.

Lemma formatOutput_timestamp_before_tag_witness :
  let s := fst (NewShellCast plainEnv timestampedConfig emptyWorld) in
  fst (formatOutput (rt := plainRuntime) plainEnv s emptyWorld (cmdPrefix 0 +:+ "hello")) =
    "[0] [CMD1] hello" /\
  outputBuffer (fst (snd (stepsDrain (rt := plainRuntime) plainEnv 2
                       (mkDrain (cmdPrefix 0) ["hello"; "world"] AtScan) (s, emptyWorld)))) =
    "[0] [CMD1] hello" +:+ nl.
Proof.
  exact (formatOutput_timestamp_before_tag (rt := plainRuntime) plainEnv
           (fst (NewShellCast plainEnv timestampedConfig emptyWorld)) emptyWorld
           (cmdPrefix 0) "hello" ["world"] eq_refl).
Defined.

(** C4 (as claimed, refuted): one command printing "hello" in split mode
    with timestamps on leaves the bracket before the tag in the buffer,
    not the tag before the bracket. *)
Lemma split_tag_after_timestamp :
  let st := NewShellCast plainEnv timestampedConfig emptyWorld in
  let r := ExecuteSplitCommands (rt := plainRuntime) plainEnv
             [(0%nat, Stdout); (0%nat, Stdout)] ["echo hello"] st in
  let bracket :=
    "[" +:+ @timeFormat plainRuntime (clock plainEnv 1) (TimestampFormat timestampedConfig)
    +:+ "] " in
  outputBuffer (fst (snd r)) = bracket +:+ cmdPrefix 0 +:+ "hello" +:+ nl /\
  outputBuffer (fst (snd r)) <> cmdPrefix 0 +:+ bracket +:+ "hello" +:+ nl.
Proof. split; [reflexivity | discriminate]. Qed.

(** ** Splitting and scanning *)

Lemma splitOn_nonempty (sep : ascii) (s : string) : splitOn sep s <> [].
Proof.
  destruct s as [|c s]; cbn; [discriminate |].
  destruct (Ascii.eqb c sep); [discriminate |].
  destruct (splitOn sep s); discriminate.
Qed.

Lemma Split_nonempty (command : string) :
  exists name args, Split command = name :: args.
Proof.
  pose proof (splitOn_nonempty " "%char command) as Hne. unfold Split.
  destruct (splitOn " "%char command) as [|name args]; [done | eauto].
Qed.

Lemma scanRuns_short (runs : list string) :
  Forall (fun l => Z.of_nat (String.length l) < MaxScanTokenSize) runs ->
  scanRuns runs = map dropCR runs.
Proof.
  induction 1 as [|l runs Hl _ IH]; [reflexivity |].
  cbn [scanRuns map].
  destruct (Z.leb_spec MaxScanTokenSize (Z.of_nat (String.length l))); [lia |].
  by rewrite IH.
Qed.

Lemma Scan_short (data : string) : shortLines data -> Scan data = linesWritten data.
Proof. apply scanRuns_short. Qed.

Lemma linesOf_cons_same (o : Origin) (l : string) (ls : list (Origin * string)) :
  linesOf o ((o, l) :: ls) = l :: linesOf o ls.
Proof. unfold linesOf. by rewrite filter_cons_True. Qed.

Lemma linesOf_cons_other (o o' : Origin) (l : string) (ls : list (Origin * string)) :
  o' <> o -> linesOf o ((o', l) :: ls) = linesOf o ls.
Proof. intros Hne. unfold linesOf. by rewrite filter_cons_False. Qed.

Lemma linesOf_app (o : Origin) (ls1 ls2 : list (Origin * string)) :
  linesOf o (ls1 ++ ls2)%list = (linesOf o ls1 ++ linesOf o ls2)%list.
Proof. unfold linesOf. by rewrite filter_app, map_app. Qed.

Lemma linesOf_pair_same (o : Origin) (ls : list string) :
  linesOf o (map (pair o) ls) = ls.
Proof.
  induction ls as [|l ls IH]; [reflexivity |].
  cbn [map]. by rewrite linesOf_cons_same, IH.
Qed.

Lemma linesOf_pair_other (o o' : Origin) (ls : list string) :
  o' <> o -> linesOf o (map (pair o') ls) = [].
Proof.
  intros Hne. induction ls as [|l ls IH]; [reflexivity |].
  cbn [map]. by rewrite linesOf_cons_other.
Qed.

(** ** ExecuteCommand *)

Section execute.
Context {rt : Runtime}.

(** However the two drain goroutines interleave, by the time both are
    done the buffer has grown by what the two of them owed, each line of
    a pipe once and in its order. *)
Lemma runDrains_owes (e : Env) (sched : list Origin) (out err : Drain)
    (s : ShellCast) (w : World) :
  exists fls : list (Origin * string),
    owes (config s) out (linesOf Stdout fls) /\
    owes (config s) err (linesOf Stderr fls) /\
    outputBuffer (fst (runDrains e sched out err (s, w))) =
      outputBuffer s +:+ terminated (map snd fls).
Proof.
  revert out err s w. induction sched as [|o sched IH]; intros out err s w.
  - cbn [runDrains].
    destruct (finishDrain_owes e out s w) as (fo & Hfo & Hbo & Hco).
    destruct (finishDrain e out (s, w)) as [s1 w1]. cbn [fst] in *.
    destruct (finishDrain_owes e err s1 w1) as (fe & Hfe & Hbe & Hce).
    exists (map (pair Stdout) fo ++ map (pair Stderr) fe)%list.
    rewrite !linesOf_app, !linesOf_pair_same.
    rewrite !linesOf_pair_other by discriminate.
    rewrite app_nil_r, Hco in *. repeat split; [done | done |].
    rewrite Hbe, Hbo, map_app, !map_map, !map_id, terminated_app.
    by rewrite append_assoc.
  - destruct o; cbn [runDrains].
    + pose proof (stepDrain_session e out s w) as [Hbuf Hcfg].
      pose proof (stepDrain_owes e out s w) as Howes.
      destruct (stepDrain e out (s, w)) as [out' [s' w']]. cbn [fst snd] in *.
      destruct (IH out' err s' w') as (fls & Hout & Herr & Hb).
      exists (map (pair Stdout) (committing out) ++ fls)%list.
      rewrite !linesOf_app, linesOf_pair_same.
      rewrite linesOf_pair_other by discriminate. rewrite Hcfg in *.
      repeat split; [by apply Howes | done |].
      rewrite Hb, Hbuf, map_app, map_map, map_id, terminated_app.
      by rewrite append_assoc.
    + pose proof (stepDrain_session e err s w) as [Hbuf Hcfg].
      pose proof (stepDrain_owes e err s w) as Howes.
      destruct (stepDrain e err (s, w)) as [err' [s' w']]. cbn [fst snd] in *.
      destruct (IH out err' s' w') as (fls & Hout & Herr & Hb).
      exists (map (pair Stderr) (committing err) ++ fls)%list.
      rewrite !linesOf_app, linesOf_pair_same.
      rewrite linesOf_pair_other by discriminate. rewrite Hcfg in *.
      repeat split; [done | by apply Howes |].
      rewrite Hb, Hbuf, map_app, map_map, map_id, terminated_app.
      by rewrite append_assoc.
Qed.


(** C8 (the code at the empty command): [strings.Split] yields one empty
    part, so the [len(parts) == 0] branch is not taken; the pipes are made
    and [cmd.Start] is called on the argument vector [""], and the error,
    if any, is that of a pipe or of the start. *)
Theorem ExecuteCommand_empty_command (e : Env) (sched : list Origin)
    (s : ShellCast) (w : World) :
  Split "" = [""] /\
  fst (ExecuteCommand e sched "" (s, w)) <> Some ErrEmptyCommand /\
  ExecuteCommand e sched "" (s, w) =
    match stdoutPipe e [""] with
    | Some cause => (Some (ErrStdoutPipe cause), (s, w))
    | None =>
        match stderrPipe e [""] with
        | Some cause => (Some (ErrStderrPipe cause), (s, w))
        | None =>
            match start e [""] with
            | Err cause => (Some (ErrStartingCommand cause), (s, logStart [""] w))
            | Ok cmd =>
                let st' :=
                  runDrains e sched (newDrain "" (childStdout cmd))
                    (newDrain "" (childStderr cmd)) (s, logStart [""] w) in
                (Wait cmd, (fst st', logWait (pid cmd) (snd st')))
            end
        end
    end.
Proof.
  split; [reflexivity |].
  unfold ExecuteCommand. cbn [Split splitOn].
  destruct (stdoutPipe e [""]); [split; [discriminate | reflexivity] |].
  destruct (stderrPipe e [""]); [split; [discriminate | reflexivity] |].
  destruct (start e [""]) as [cmd|]; [| split; [discriminate | reflexivity]].
  destruct (runDrains _ _ _ _ _) as [s2 w2]. cbn.
  split; [| reflexivity]. unfold Wait. destruct (exitStatus cmd =? 0); discriminate.
Qed.

(** No command string at all makes [ExecuteCommand] report an empty
    command. *)
Lemma ExecuteCommand_never_reports_empty (e : Env) (sched : list Origin)
    (command : string) (st : State) :
  fst (ExecuteCommand e sched command st) <> Some ErrEmptyCommand.
Proof.
  destruct st as [s w]. unfold ExecuteCommand.
  destruct (Split_nonempty command) as (name & args & ->).
  destruct (stdoutPipe e _); [discriminate |].
  destruct (stderrPipe e _); [discriminate |].
  destruct (start e _) as [cmd|]; [| discriminate].
  destruct (runDrains _ _ _ _ _) as [s2 w2]. cbn.
  unfold Wait. destruct (exitStatus cmd =? 0); discriminate.
Qed.

End execute.



(** ** The session life cycle *)

Section lifecycle_facts.
Context {rt : Runtime}.

(** C6: a start or stop call that returns a state-conflict error leaves
    the session and the world as they were: every field of the ShellCast
    value, the file store, the clock and the list of started processes. *)
Theorem state_conflict_changes_nothing (e : Env) (op : Op) (st : State) (err : error) :
  fst (call e op st) = Some err ->
  stateConflict err = true ->
  snd (call e op st) = st.
Proof.
  destruct st as [s w]. destruct op; cbn [call].
  - unfold StartStreaming. destruct (streaming s); [done |].
    repeat case_match; cbn; intros; simplify_eq; done.
  - unfold StopStreaming.
    repeat case_match; cbn; intros; simplify_eq; done.
  - unfold StartRecording. destruct (recording s); [done |].
    repeat case_match; cbn; intros; simplify_eq; done.
  - unfold StopRecording. destruct (recording s); [| done].
    repeat case_match; cbn; intros; simplify_eq; done.
  - cbn. discriminate.
Qed.

(** The conflicts are reported where they are: by a start on an active
    subsystem and by a stop on an idle one. *)
Lemma state_conflict_reported (e : Env) (s : ShellCast) (w : World) :
  (streaming s = true -> StartStreaming e (s, w) = (Some ErrAlreadyStreaming, (s, w))) /\
  (streaming s = false -> StopStreaming e (s, w) = (Some ErrNotStreaming, (s, w))) /\
  (streamProc s = None -> StopStreaming e (s, w) = (Some ErrNotStreaming, (s, w))) /\
  (recording s = true -> StartRecording e (s, w) = (Some ErrAlreadyRecording, (s, w))) /\
  (recording s = false -> StopRecording e (s, w) = (Some ErrNotRecording, (s, w))).
Proof.
  unfold StartStreaming, StopStreaming, StartRecording, StopRecording.
  repeat split; intros ->; try done. by destruct (streaming s).
Qed.

Lemma StartStreaming_tracks (e : Env) (st : State) :
  handlesTrack (fst st) -> handlesTrack (fst (snd (StartStreaming e st))).
Proof.
  destruct st as [s w]. unfold handlesTrack, StartStreaming.
  intros [Hs Hr]. cbn [fst snd].
  repeat case_match; simplify_eq; cbn; try done.
Qed.

Lemma StopStreaming_tracks (e : Env) (st : State) :
  handlesTrack (fst st) -> handlesTrack (fst (snd (StopStreaming e st))).
Proof.
  destruct st as [s w]. unfold handlesTrack, StopStreaming.
  intros [Hs Hr]. cbn [fst snd].
  repeat case_match; simplify_eq; cbn; try done.
Qed.

Lemma StartRecording_tracks (e : Env) (st : State) :
  (forall dir file, file <> "" -> filepathJoin dir file <> "") ->
  handlesTrack (fst st) -> handlesTrack (fst (snd (StartRecording e st))).
Proof.
  intros Hjoin. destruct st as [s w]. unfold handlesTrack, StartRecording.
  intros [Hs Hr]. cbn [fst snd].
  repeat case_match; simplify_eq; cbn; try done.
  all: split; [done |]; intros _; apply Hjoin; discriminate.
Qed.

Lemma StopRecording_tracks (e : Env) (st : State) :
  handlesTrack (fst st) -> handlesTrack (fst (snd (StopRecording e st))).
Proof.
  destruct st as [s w]. unfold handlesTrack, StopRecording.
  intros [Hs Hr]. cbn [fst snd].
  repeat case_match; simplify_eq; cbn; try done.
Qed.

Lemma Cleanup_tracks (e : Env) (st : State) :
  handlesTrack (fst st) -> handlesTrack (fst (Cleanup e st)).
Proof.
  intros H. unfold Cleanup.
  set (st1 := if streaming (fst st) then snd (StopStreaming e st) else st).
  assert (handlesTrack (fst st1)) as H1
    by (subst st1; destruct (streaming (fst st)); [by apply StopStreaming_tracks | done]).
  clearbody st1.
  destruct (recording (fst st1)); [by apply StopRecording_tracks | done].
Qed.

(** C5 (amended): in every state reachable through the five calls, the
    streaming handle is set exactly when the streaming flag is, and a
    session whose recording flag is set has a recording path. *)
Theorem reachable_handlesTrack (st : State) :
  (forall dir file, file <> "" -> filepathJoin dir file <> "") ->
  reachable st -> handlesTrack (fst st).
Proof.
  intros Hjoin. induction 1 as [e cfg w | e op st _ IH].
  - unfold handlesTrack. cbn. split; [split |]; done.
  - destruct op; cbn [call snd].
    + by apply StartStreaming_tracks.
    + by apply StopStreaming_tracks.
    + by apply StartRecording_tracks.
    + by apply StopRecording_tracks.
    + by apply Cleanup_tracks.
Qed.

(** C2 (amended): a [StopStreaming] that succeeds while a capture path is
    set calls [os.Remove] on that path and clears it, whoever chose the
    path; when the removal succeeds the file is gone from the store. *)
Theorem StopStreaming_removes_capture_file (e : Env) (s : ShellCast) (w : World)
    (proc : Process) :
  streaming s = true ->
  streamProc s = Some proc ->
  kill e proc = None ->
  OutputFile (config s) <> "" ->
  let r := StopStreaming e (s, w) in
  fst r = None /\
  OutputFile (config (fst (snd r))) = "" /\
  streaming (fst (snd r)) = false /\
  streamProc (fst (snd r)) = None /\
  files (snd (snd r)) =
    match remove e (OutputFile (config s)) with
    | None => delete (OutputFile (config s)) (files w)
    | Some _ => files w
    end.
Proof.
  intros Hon Hproc Hkill Hpath. unfold StopStreaming.
  rewrite Hon, Hproc, Hkill. cbn [config setStream].
  destruct (String.eqb_spec (OutputFile (config s)) "") as [Heq | _]; [done |].
  cbn. repeat split. by destruct (remove e (OutputFile (config s))).
Qed.

(** [StartStreaming] makes a temporary capture file only when no path is
    configured; a configured path is kept and the file there overwritten
    with the buffer. *)
Lemma StartStreaming_capture_path (e : Env) (s : ShellCast) (w : World) :
  fst (StartStreaming e (s, w)) = None ->
  let s' := fst (snd (StartStreaming e (s, w))) in
  let w' := snd (snd (StartStreaming e (s, w))) in
  files w' !! OutputFile (config s') = Some (outputBuffer s) /\
  (if String.eqb (OutputFile (config s)) "" then createTemp e = Ok (OutputFile (config s'))
   else OutputFile (config s') = OutputFile (config s)).
Proof.
  unfold StartStreaming. destruct (streaming s); [done |].
  destruct (String.eqb (OutputFile (config s)) "").
  - destruct (createTemp e) as [name|]; [| done]. cbn.
    destruct (writeFile e name); [done |].
    match goal with |- context [start e ?a] => destruct (start e a) end; [| done].
    cbn. intros _. split; [apply lookup_insert_eq | done].
  - destruct (writeFile e (OutputFile (config s))); [done |].
    match goal with |- context [start e ?a] => destruct (start e a) end; [| done].
    cbn. intros _. split; [apply lookup_insert_eq | done].
Qed.

(** [StartRecording] never touches the start time the session was created
    with. *)
Lemma StartRecording_keeps_startTime (e : Env) (st : State) :
  startTime (fst (snd (StartRecording e st))) = startTime (fst st).
Proof.
  destruct st as [s w]. unfold StartRecording.
  repeat case_match; simplify_eq; done.
Qed.

(** No call of the life cycle sets the start time: it stays what
    [NewShellCast] read off the clock. *)
Lemma call_keeps_startTime (e : Env) (op : Op) (st : State) :
  startTime (fst (snd (call e op st))) = startTime (fst st).
Proof.
  assert (Hss : forall st, startTime (fst (snd (StopStreaming e st))) = startTime (fst st)).
  { intros [s w]. unfold StopStreaming. repeat case_match; simplify_eq; done. }
  assert (Hsr : forall st, startTime (fst (snd (StopRecording e st))) = startTime (fst st)).
  { intros [s w]. unfold StopRecording. repeat case_match; simplify_eq; done. }
  destruct op; cbn [call snd].
  - destruct st as [s w]. unfold StartStreaming. repeat case_match; simplify_eq; done.
  - apply Hss.
  - apply StartRecording_keeps_startTime.
  - apply Hsr.
  - unfold Cleanup.
    set (st1 := if streaming (fst st) then snd (StopStreaming e st) else st).
    assert (startTime (fst st1) = startTime (fst st)) as <-
      by (subst st1; destruct (streaming (fst st)); [apply Hss | done]).
    clearbody st1. destruct (recording (fst st1)); [apply Hsr | done].
Qed.


End lifecycle_facts.

Lemma state_conflict_changes_nothing_witness :
  let st := snd (call (rt := plainRuntime) plainEnv OpStartStreaming
                   (NewShellCast plainEnv GetDefaultConfig emptyWorld)) in
  snd (call (rt := plainRuntime) plainEnv OpStartStreaming st) = st.
Proof.
  exact (state_conflict_changes_nothing (rt := plainRuntime) plainEnv OpStartStreaming
           (snd (call (rt := plainRuntime) plainEnv OpStartStreaming
                   (NewShellCast plainEnv GetDefaultConfig emptyWorld)))
           ErrAlreadyStreaming eq_refl eq_refl).
Defined.

Lemma reachable_handlesTrack_witness :
  handlesTrack
    (fst (snd (call (rt := plainRuntime) plainEnv OpStopRecording
            (snd (call (rt := plainRuntime) plainEnv OpStartRecording
               (NewShellCast plainEnv GetDefaultConfig emptyWorld)))))).
Proof.
  apply (reachable_handlesTrack (rt := plainRuntime)).
  - intros dir file _. destruct dir; discriminate.
  - apply reachable_call, reachable_call, reachable_new.
Defined.

(** C5 (as claimed, refuted): after a recording was started and stopped
    the recording flag is off and the recording path still set. *)
Lemma recordPath_outlives_recording :
  let st := snd (call (rt := plainRuntime) plainEnv OpStopRecording
              (snd (call (rt := plainRuntime) plainEnv OpStartRecording
                 (NewShellCast plainEnv GetDefaultConfig emptyWorld)))) in
  reachable (rt := plainRuntime) st /\
  recording (fst st) = false /\
  recordPath (fst st) = "./recordings/shellcast_1000000000.txt" /\
  ~ handlesAgree (fst st).
Proof.
  cbv zeta. split; [apply reachable_call, reachable_call, reachable_new |].
  split; [reflexivity |]. split; [reflexivity |].
  intros [_ [Hset _]]. assert (false = true) as Habs; [| discriminate Habs].
  apply Hset. discriminate.
Qed.

Lemma StopStreaming_removes_capture_file_witness :
  let st := snd (StartStreaming plainEnv
                   (NewShellCast plainEnv GetDefaultConfig emptyWorld)) in
  let r := StopStreaming plainEnv st in
  fst r = None /\
  OutputFile (config (fst (snd r))) = "" /\
  streaming (fst (snd r)) = false /\
  streamProc (fst (snd r)) = None /\
  files (snd (snd r)) = delete "/tmp/shellcast_1.txt" (files (snd st)).
Proof.
  exact (StopStreaming_removes_capture_file plainEnv
           (fst (snd (StartStreaming plainEnv
                        (NewShellCast plainEnv GetDefaultConfig emptyWorld))))
           (snd (snd (StartStreaming plainEnv
                        (NewShellCast plainEnv GetDefaultConfig emptyWorld))))
           15%nat eq_refl eq_refl eq_refl
           (fun H : "/tmp/shellcast_1.txt" = "" => eq_ind "/tmp/shellcast_1.txt"
              (fun x : string => match x with EmptyString => False | String _ _ => True end)
              I "" H)).
Defined.

(** C2 (as claimed, refuted): the caller configures /srv/capture.txt, a
    file of theirs; streaming is started and stopped; the file is gone. *)
Lemma StopStreaming_deletes_configured_file :
  let cfg := setOutputFile GetDefaultConfig "/srv/capture.txt" in
  let w := wroteFile "/srv/capture.txt" "kept by the caller" emptyWorld in
  let r1 := StartStreaming plainEnv (NewShellCast plainEnv cfg w) in
  let r2 := StopStreaming plainEnv (snd r1) in
  fst r1 = None /\
  OutputFile (config (fst (snd r1))) = "/srv/capture.txt" /\
  is_Some (files (snd (snd r1)) !! "/srv/capture.txt") /\
  fst r2 = None /\
  files (snd (snd r2)) !! "/srv/capture.txt" = None.
Proof. cbv zeta. repeat split; try reflexivity. by eexists. Qed.

(** C3 (the code at a recording started late): the session is created at
    0 s, the recording is started at 41 s with a header written at 42 s,
    and stopped at 43 s; the footer reports 44 s, the time since the
    session was created, where two seconds have passed since the header. *)
Theorem StopRecording_duration_counts_from_creation :
  let st0 := NewShellCast plainEnv GetDefaultConfig emptyWorld in
  let r1 := StartRecording (rt := plainRuntime) laterEnv st0 in
  let r2 := StopRecording (rt := plainRuntime) laterEnv (snd r1) in
  fst r1 = None /\
  fst r2 = None /\
  startTime (fst (snd r1)) = clock plainEnv 0 /\
  Sub (clock laterEnv 4) (clock laterEnv 2) = 2 * Second /\
  footerDuration (fst (snd r1)) (clock laterEnv 4) = 44 * Second /\
  files (snd (snd r2)) !! recordPath (fst (snd r2)) =
    Some ("ShellCast Recording - Started at 42000000000" +:+ nl
          +:+ "Command: shellcast -interactive" +:+ nl
          +:+ Repeat "-" 80 +:+ nl +:+ nl
          +:+ nl +:+ nl +:+ Repeat "-" 80 +:+ nl
          +:+ "Recording ended at 43000000000" +:+ nl
          +:+ "Duration: 44s" +:+ nl).
Proof. cbv zeta. repeat split; vm_compute; reflexivity. Qed.

(** ** ExecuteSplitCommands *)











Lemma waitRunner_all (rs : list (option Runner)) (w : World) :
  ticks (fold_left waitRunner rs w) = ticks w /\
  files (fold_left waitRunner rs w) = files w /\
  started (fold_left waitRunner rs w) = started w /\
  (forall p, p ∈ reaped w -> p ∈ reaped (fold_left waitRunner rs w)) /\
  (forall r, Some r ∈ rs -> rPid r ∈ reaped (fold_left waitRunner rs w)).
Proof.
  revert w. induction rs as [|r rs IH]; intros w.
  - cbn. repeat split; [done |]. intros r Hin. by apply elem_of_nil in Hin.
  - cbn [fold_left]. destruct (IH (waitRunner w r)) as (Ht & Hf & Hs & Hold & Hnew).
    rewrite Ht, Hf, Hs. repeat split; try (by destruct r).
    + intros p Hp. apply Hold. destruct r; cbn; [rewrite elem_of_cons |]; auto.
    + intros r' Hin. apply elem_of_cons in Hin as [<- | Hin]; [| by apply Hnew].
      apply Hold. cbn. rewrite elem_of_cons. auto.
Qed.

Section split.
Context {rt : Runtime}.





End split.



(** C10 (as claimed, refuted): "/etc/passwd/x" names no file, and the
    read of it fails with an error that is not [os.IsNotExist]:
    [LoadConfig] returns the defaults with an error. *)
Lemma LoadConfig_missing_file_error :
  files passwdWorld !! "/etc/passwd/x" = None /\
  osReadFile throughPasswd passwdWorld "/etc/passwd/x" = ReadFailed "not a directory" /\
  LoadConfig (osReadFile throughPasswd passwdWorld) (fun _ c => (c, None)) "/etc/passwd/x" =
    (GetDefaultConfig, Some (ErrReadingConfig "not a directory")) /\
  ~ missingFileGivesDefaults.
Proof.
  split; [reflexivity |]. split; [reflexivity |]. split; [reflexivity |].
  intros Hclaim.
  specialize (Hclaim throughPasswd (fun _ c => (c, None)) passwdWorld "/etc/passwd/x"
                eq_refl).
  discriminate Hclaim.
Qed.

(** ** Further properties: config.go *)

(** X1: of two calls of [ApplyTheme] in a row the second decides when it
    names a preset, whatever the first did, and changes nothing when it
    does not; applying the same preset twice is applying it once. *)
Theorem ApplyTheme_last_wins (c : Config) (first second : string) :
  snd (ApplyTheme (snd (ApplyTheme c first)) second) =
    match GetThemePresets !! second with
    | Some _ => snd (ApplyTheme c second)
    | None => snd (ApplyTheme c first)
    end.
Proof.
  unfold ApplyTheme.
  destruct (GetThemePresets !! second) as [theme2|];
    destruct (GetThemePresets !! first) as [theme1|]; reflexivity.
Qed.

(** X2: a configuration saved without error is the one [LoadConfig]
    returns, without error, for the same path, when the read does not fail
    and decoding what was encoded gives the configuration back. *)
Theorem SaveConfig_LoadConfig (MarshalIndent : marshaler) (Unmarshal : unmarshaler)
    (Dir : string -> string) (fails : string -> option string) (e : Env)
    (c : Config) (filePath : string) (w : World) :
  (forall data, MarshalIndent c = Ok data -> Unmarshal data GetDefaultConfig = (c, None)) ->
  fails filePath = None ->
  fst (SaveConfig MarshalIndent Dir e c filePath w) = None ->
  LoadConfig (osReadFile fails (snd (SaveConfig MarshalIndent Dir e c filePath w)))
    Unmarshal filePath = (c, None).
Proof.
  intros Hcodec Hread. unfold SaveConfig.
  destruct (MarshalIndent c) as [data|cause] eqn:Hm; [| discriminate].
  destruct (if statNotExist e (Dir filePath) then _ else _); [discriminate |].
  destruct (writeFile e filePath); [discriminate |]. intros _. cbn [snd].
  unfold LoadConfig, osReadFile, wroteFile. cbn. rewrite Hread, lookup_insert_eq.
  by rewrite (Hcodec data eq_refl).
Qed.

Lemma SaveConfig_LoadConfig_witness :
  LoadConfig
    (osReadFile (fun _ => None)
       (snd (SaveConfig linesMarshal (fun _ => ".") plainEnv streamerConfig
               "conf/streamer.json" emptyWorld)))
    linesUnmarshal "conf/streamer.json" = (streamerConfig, None).
Proof.
  apply (SaveConfig_LoadConfig linesMarshal linesUnmarshal (fun _ => ".") (fun _ => None)
           plainEnv streamerConfig "conf/streamer.json" emptyWorld).
  - intros data Hdata. injection Hdata as <-. reflexivity.
  - reflexivity.
  - reflexivity.
Defined.

(** ** Further properties: what a command run changes *)

Lemma onlyBufferGrows_refl (s : ShellCast) : onlyBufferGrows s s.
Proof. exists "". rewrite append_nil_r. by destruct s. Qed.

Lemma onlyBufferGrows_trans (s1 s2 s3 : ShellCast) :
  onlyBufferGrows s1 s2 -> onlyBufferGrows s2 s3 -> onlyBufferGrows s1 s3.
Proof.
  intros [g1 ->] [g2 ->]. exists (g1 +:+ g2). cbn. by rewrite append_assoc.
Qed.

Lemma onlyBufferGrows_tracks (s s' : ShellCast) :
  onlyBufferGrows s s' -> handlesTrack s -> handlesTrack s'.
Proof. by intros [g ->]. Qed.

Lemma onlyBufferGrows_advances (s s' : ShellCast) :
  onlyBufferGrows s s' -> sessionAdvances s s'.
Proof. intros [g ->]. split; [done | by exists g]. Qed.

Section command_frame.
Context {rt : Runtime}.

Lemma stepDrain_onlyBufferGrows (e : Env) (d : Drain) (s : ShellCast) (w : World) :
  onlyBufferGrows s (fst (snd (stepDrain e d (s, w)))).
Proof.
  destruct d as [p ls [|fl|fl|fl]]; unfold stepDrain; cbn.
  - destruct ls as [|l ls]; [apply onlyBufferGrows_refl |].
    destruct (formatOutput e s w _). apply onlyBufferGrows_refl.
  - by exists (fl +:+ nl).
  - apply onlyBufferGrows_refl.
  - apply onlyBufferGrows_refl.
Qed.

Lemma stepsDrain_onlyBufferGrows (e : Env) (n : nat) (d : Drain) (s : ShellCast) (w : World) :
  onlyBufferGrows s (fst (snd (stepsDrain e n d (s, w)))).
Proof.
  revert d s w. induction n as [|n IH]; intros d s w; [apply onlyBufferGrows_refl |].
  cbn [stepsDrain]. pose proof (stepDrain_onlyBufferGrows e d s w) as Hstep.
  destruct (stepDrain e d (s, w)) as [d' [s' w']]. cbn [fst snd] in Hstep.
  eapply onlyBufferGrows_trans; [exact Hstep | apply IH].
Qed.

Lemma runDrains_onlyBufferGrows (e : Env) (sched : list Origin) (out err : Drain)
    (s : ShellCast) (w : World) :
  onlyBufferGrows s (fst (runDrains e sched out err (s, w))).
Proof.
  revert out err s w. induction sched as [|o sched IH]; intros out err s w.
  - cbn [runDrains]. unfold finishDrain.
    pose proof (stepsDrain_onlyBufferGrows e (4 * S (length (dLines out))) out s w) as H1.
    destruct (stepsDrain e _ out (s, w)) as [out' [s1 w1]]. cbn [fst snd] in *.
    eapply onlyBufferGrows_trans; [exact H1 | apply stepsDrain_onlyBufferGrows].
  - destruct o; cbn [runDrains].
    + pose proof (stepDrain_onlyBufferGrows e out s w) as Hstep.
      destruct (stepDrain e out (s, w)) as [out' [s' w']]. cbn [fst snd] in Hstep.
      eapply onlyBufferGrows_trans; [exact Hstep | apply IH].
    + pose proof (stepDrain_onlyBufferGrows e err s w) as Hstep.
      destruct (stepDrain e err (s, w)) as [err' [s' w']]. cbn [fst snd] in Hstep.
      eapply onlyBufferGrows_trans; [exact Hstep | apply IH].
Qed.

Lemma runSplit_onlyBufferGrows (e : Env) (sched : list (nat * Origin))
    (rs : list (option Runner)) (s : ShellCast) (w : World) :
  onlyBufferGrows s (fst (runSplit e sched rs (s, w))).
Proof.
  revert rs s w. induction sched as [|[i o] sched IH]; intros rs s w;
    [apply onlyBufferGrows_refl |].
  cbn [runSplit]. destruct (rs !! i) as [[r|]|]; [| apply IH ..].
  pose proof (stepDrain_onlyBufferGrows e (drainOf o r) s w) as Hstep.
  destruct (stepDrain e (drainOf o r) (s, w)) as [d' [s' w']]. cbn [fst snd] in Hstep.
  eapply onlyBufferGrows_trans; [exact Hstep | apply IH].
Qed.

Lemma ExecuteCommand_grows (e : Env) (sched : list Origin) (command : string)
    (s : ShellCast) (w : World) :
  onlyBufferGrows s (fst (snd (ExecuteCommand e sched command (s, w)))).
Proof.
  unfold ExecuteCommand. destruct (Split command) as [|name args];
    [apply onlyBufferGrows_refl |].
  destruct (stdoutPipe e _); [apply onlyBufferGrows_refl |].
  destruct (stderrPipe e _); [apply onlyBufferGrows_refl |].
  destruct (start e _) as [cmd|]; [| apply onlyBufferGrows_refl].
  pose proof (runDrains_onlyBufferGrows e sched (newDrain "" (childStdout cmd))
                (newDrain "" (childStderr cmd)) s (logStart (name :: args) w)) as Hrun.
  by destruct (runDrains e sched _ _ _) as [s2 w2].
Qed.

Lemma ExecuteSplitCommands_grows (e : Env) (sched : list (nat * Origin))
    (commands : list string) (s : ShellCast) (w : World) :
  onlyBufferGrows s (fst (snd (ExecuteSplitCommands e sched commands (s, w)))).
Proof.
  unfold ExecuteSplitCommands. destruct commands as [|command rest];
    [apply onlyBufferGrows_refl |].
  destruct (spawnAll e 0 (command :: rest) w) as [rs w1].
  pose proof (runSplit_onlyBufferGrows e sched rs s w1) as Hrun.
  by destruct (runSplit e sched rs (s, w1)) as [s2 w2].
Qed.

(** X3: whatever the command, its outcome and the schedule,
    [ExecuteCommand] leaves the configuration, the streaming and recording
    flags, the stream process, the recording path and the start time as
    they were, and the buffer it leaves starts with the buffer it found. *)
Theorem ExecuteCommand_onlyBufferGrows (e : Env) (sched : list Origin) (command : string)
    (s : ShellCast) (w : World) :
  let s' := fst (snd (ExecuteCommand e sched command (s, w))) in
  config s' = config s /\ streaming s' = streaming s /\ streamProc s' = streamProc s /\
  recording s' = recording s /\ recordPath s' = recordPath s /\
  startTime s' = startTime s /\
  exists grown, outputBuffer s' = outputBuffer s +:+ grown.
Proof.
  destruct (ExecuteCommand_grows e sched command s w) as [grown ->]. cbn.
  repeat split. by exists grown.
Qed.

(** X4: the same holds of [ExecuteSplitCommands], whatever the commands,
    their outcomes and the schedule. *)
Theorem ExecuteSplitCommands_onlyBufferGrows (e : Env) (sched : list (nat * Origin))
    (commands : list string) (s : ShellCast) (w : World) :
  let s' := fst (snd (ExecuteSplitCommands e sched commands (s, w))) in
  config s' = config s /\ streaming s' = streaming s /\ streamProc s' = streamProc s /\
  recording s' = recording s /\ recordPath s' = recordPath s /\
  startTime s' = startTime s /\
  exists grown, outputBuffer s' = outputBuffer s +:+ grown.
Proof.
  destruct (ExecuteSplitCommands_grows e sched commands s w) as [grown ->]. cbn.
  repeat split. by exists grown.
Qed.

End command_frame.

(** ** Further properties: command runs and the files *)

Lemma scanRuns_prefix (runs : list string) : scanRuns runs `prefix_of` map dropCR runs.
Proof.
  induction runs as [|l runs IH]; [done |]. cbn [scanRuns map].
  destruct (MaxScanTokenSize <=? Z.of_nat (String.length l)); [apply prefix_nil |].
  by apply prefix_cons.
Qed.

Lemma splitOn_app (sep : ascii) (a b : string) :
  splitOn sep (a +:+ String sep b) = (splitOn sep a ++ splitOn sep b)%list.
Proof.
  induction a as [|c a IH].
  - change ("" +:+ String sep b) with (String sep b). cbn [splitOn].
    by rewrite Ascii.eqb_refl.
  - rewrite append_cons. cbn [splitOn]. rewrite IH.
    destruct (Ascii.eqb c sep); [done |].
    pose proof (splitOn_nonempty sep a) as Hne.
    by destruct (splitOn sep a).
Qed.

(** Cutting at the spaces what [strings.Join] joined with spaces cuts
    every part at its spaces. *)
Lemma Split_concat (args : list string) :
  args <> [] -> Split (String.concat " " args) = concat (map Split args).
Proof.
  intros Hne. induction args as [|a args IH]; [done |].
  destruct args as [|b args].
  - cbn. by rewrite app_nil_r.
  - change (String.concat " " (a :: b :: args))
      with (a +:+ String " "%char (String.concat " " (b :: args))).
    unfold Split in *. rewrite splitOn_app, IH by done. reflexivity.
Qed.

Section command_files.
Context {rt : Runtime}.

Lemma stepDrain_idle (e : Env) (d : Drain) (s : ShellCast) (w : World) :
  streaming s = false -> recording s = false ->
  files (snd (snd (stepDrain e d (s, w)))) = files w.
Proof.
  intros Hs Hr. destruct d as [p ls [|fl|fl|fl]]; unfold stepDrain; cbn.
  - destruct ls as [|l ls]; [done |].
    pose proof (formatOutput_world e s w (p +:+ l)) as (Hf & _).
    by destruct (formatOutput e s w _).
  - done.
  - by rewrite Hs.
  - by rewrite Hr.
Qed.

Lemma stepsDrain_idle (e : Env) (n : nat) (d : Drain) (s : ShellCast) (w : World) :
  streaming s = false -> recording s = false ->
  files (snd (snd (stepsDrain e n d (s, w)))) = files w.
Proof.
  revert d s w. induction n as [|n IH]; intros d s w Hs Hr; [done |].
  cbn [stepsDrain]. pose proof (stepDrain_idle e d s w Hs Hr) as Hf.
  pose proof (stepDrain_onlyBufferGrows e d s w) as [g Hg].
  destruct (stepDrain e d (s, w)) as [d' [s' w']]. cbn [fst snd] in *. subst s'.
  by rewrite IH.
Qed.

Lemma runDrains_idle (e : Env) (sched : list Origin) (out err : Drain)
    (s : ShellCast) (w : World) :
  streaming s = false -> recording s = false ->
  files (snd (runDrains e sched out err (s, w))) = files w.
Proof.
  revert out err s w. induction sched as [|o sched IH]; intros out err s w Hs Hr.
  - cbn [runDrains]. unfold finishDrain.
    pose proof (stepsDrain_idle e (4 * S (length (dLines out))) out s w Hs Hr) as H1.
    pose proof (stepsDrain_onlyBufferGrows e (4 * S (length (dLines out))) out s w)
      as [g Hg].
    destruct (stepsDrain e _ out (s, w)) as [out' [s1 w1]]. cbn [fst snd] in *. subst s1.
    by rewrite stepsDrain_idle.
  - destruct o; cbn [runDrains].
    + pose proof (stepDrain_idle e out s w Hs Hr) as Hf.
      pose proof (stepDrain_onlyBufferGrows e out s w) as [g Hg].
      destruct (stepDrain e out (s, w)) as [out' [s' w']]. cbn [fst snd] in *. subst s'.
      by rewrite IH.
    + pose proof (stepDrain_idle e err s w Hs Hr) as Hf.
      pose proof (stepDrain_onlyBufferGrows e err s w) as [g Hg].
      destruct (stepDrain e err (s, w)) as [err' [s' w']]. cbn [fst snd] in *. subst s'.
      by rewrite IH.
Qed.

Lemma runSplit_idle (e : Env) (sched : list (nat * Origin)) (rs : list (option Runner))
    (s : ShellCast) (w : World) :
  streaming s = false -> recording s = false ->
  files (snd (runSplit e sched rs (s, w))) = files w.
Proof.
  revert rs s w. induction sched as [|[i o] sched IH]; intros rs s w Hs Hr; [done |].
  cbn [runSplit]. destruct (rs !! i) as [[r|]|]; [| by apply IH ..].
  pose proof (stepDrain_idle e (drainOf o r) s w Hs Hr) as Hf.
  pose proof (stepDrain_onlyBufferGrows e (drainOf o r) s w) as [g Hg].
  destruct (stepDrain e (drainOf o r) (s, w)) as [d' [s' w']]. cbn [fst snd] in *. subst s'.
  by rewrite IH.
Qed.

Lemma spawnAll_files (e : Env) (idx : nat) (commands : list string) (w : World) :
  files (snd (spawnAll e idx commands w)) = files w.
Proof.
  revert idx w. induction commands as [|command rest IH]; intros idx w; [done |].
  cbn [spawnAll].
  assert (files (snd (spawnRunner e idx command w)) = files w) as Hf.
  { unfold spawnRunner. destruct (Split command); [done |].
    destruct (splitStdoutPipe e _ _); [done |]. destruct (splitStderrPipe e _ _); [done |].
    by destruct (splitStart e _ _). }
  destruct (spawnRunner e idx command w) as [r w1]. cbn [snd] in Hf.
  specialize (IH (S idx) w1). destruct (spawnAll e (S idx) rest w1) as [rs w2].
  cbn [snd] in *. congruence.
Qed.

(** X5: while the session is neither streaming nor recording, a command
    run writes to no file, whatever the commands print: the file store
    after [ExecuteCommand] and after [ExecuteSplitCommands] is the one
    before. *)
Theorem idle_session_writes_no_file (e : Env) (sched : list Origin)
    (split : list (nat * Origin)) (command : string) (commands : list string)
    (s : ShellCast) (w : World) :
  streaming s = false ->
  recording s = false ->
  files (snd (snd (ExecuteCommand e sched command (s, w)))) = files w /\
  files (snd (snd (ExecuteSplitCommands e split commands (s, w)))) = files w.
Proof.
  intros Hs Hr. split.
  - unfold ExecuteCommand. destruct (Split command) as [|name args]; [done |].
    destruct (stdoutPipe e _); [done |]. destruct (stderrPipe e _); [done |].
    destruct (start e _) as [cmd|]; [| done].
    pose proof (runDrains_idle e sched (newDrain "" (childStdout cmd))
                  (newDrain "" (childStderr cmd)) s (logStart (name :: args) w) Hs Hr) as Hf.
    by destruct (runDrains e sched _ _ _) as [s2 w2].
  - unfold ExecuteSplitCommands. destruct commands as [|c rest]; [done |].
    pose proof (spawnAll_files e 0 (c :: rest) w) as Hsp.
    destruct (spawnAll e 0 (c :: rest) w) as [rs w1]. cbn [snd] in Hsp.
    pose proof (runSplit_idle e split rs s w1 Hs Hr) as Hf.
    destruct (runSplit e split rs (s, w1)) as [s2 w2]. cbn [snd] in *.
    destruct (waitRunner_all rs w2) as (_ & -> & _). congruence.
Qed.


(** X7: when [ExecuteCommand] returns the error of a pipe or of the start,
    nothing of the command is left behind: the session, the file store,
    the clock and the list of processes waited for are as before. *)
Theorem ExecuteCommand_spawn_failure (e : Env) (sched : list Origin) (command : string)
    (s : ShellCast) (w : World) (err : error) :
  fst (ExecuteCommand e sched command (s, w)) = Some err ->
  spawnError err = true ->
  let w' := snd (snd (ExecuteCommand e sched command (s, w))) in
  fst (snd (ExecuteCommand e sched command (s, w))) = s /\
  files w' = files w /\ ticks w' = ticks w /\ reaped w' = reaped w.
Proof.
  unfold ExecuteCommand. destruct (Split command) as [|name args]; [by intros [= <-] |].
  destruct (stdoutPipe e _); [done |]. destruct (stderrPipe e _); [done |].
  destruct (start e _) as [cmd|]; [| done].
  destruct (runDrains e sched _ _ _) as [s2 w2]. cbn. unfold Wait.
  destruct (exitStatus cmd =? 0); [done |]. by intros [= <-].
Qed.

Lemma runDrains_logs (e : Env) (sched : list Origin) (out err : Drain) (st : State) :
  started (snd (runDrains e sched out err st)) = started (snd st) /\
  reaped (snd (runDrains e sched out err st)) = reaped (snd st).
Proof.
  assert (forall n d st,
            started (snd (snd (stepsDrain e n d st))) = started (snd st) /\
            reaped (snd (snd (stepsDrain e n d st))) = reaped (snd st)) as Hsteps.
  { induction n as [|n IH]; intros d st0; [done |]. cbn [stepsDrain].
    pose proof (stepDrain_logs e d st0) as [Hs Hr].
    destruct (stepDrain e d st0) as [d' st']. cbn [snd] in *.
    destruct (IH d' st') as [-> ->]. done. }
  revert out err st. induction sched as [|o sched IH]; intros out err st.
  - cbn [runDrains]. unfold finishDrain.
    destruct (Hsteps (4 * S (length (dLines err)))%nat err
                (snd (stepsDrain e (4 * S (length (dLines out))) out st))) as [-> ->].
    apply Hsteps.
  - destruct o; cbn [runDrains].
    + pose proof (stepDrain_logs e out st) as [Hs Hr].
      destruct (stepDrain e out st) as [out' st']. cbn [snd] in *.
      destruct (IH out' err st') as [-> ->]. done.
    + pose proof (stepDrain_logs e err st) as [Hs Hr].
      destruct (stepDrain e err st) as [err' st']. cbn [snd] in *.
      destruct (IH out err' st') as [-> ->]. done.
Qed.

(** X8: [main] joins the arguments of the command line with spaces and
    [ExecuteCommand] cuts the result at every space, so the program is
    started on the arguments each cut at its spaces: an argument with a
    space in it arrives as several. *)
Theorem joined_arguments_are_cut_again (e : Env) (sched : list Origin)
    (args : list string) (s : ShellCast) (w : World) :
  args <> [] ->
  stdoutPipe e (concat (map Split args)) = None ->
  stderrPipe e (concat (map Split args)) = None ->
  started (snd (snd (ExecuteCommand e sched (String.concat " " args) (s, w)))) =
    concat (map Split args) :: started w.
Proof.
  intros Hne Hout Herr. unfold ExecuteCommand. rewrite Split_concat by done.
  destruct (concat (map Split args)) as [|name rest] eqn:Hargv.
  - destruct args as [|a args]; [done |]. cbn in Hargv.
    destruct (Split_nonempty a) as (n & r & Ha). by rewrite Ha in Hargv.
  - rewrite Hout, Herr. destruct (start e (name :: rest)) as [cmd|]; [| done].
    pose proof (runDrains_logs e sched (newDrain "" (childStdout cmd))
                  (newDrain "" (childStderr cmd)) (s, logStart (name :: rest) w))
      as [Hs _].
    by destruct (runDrains e sched _ _ _) as [s2 w2].
Qed.

End command_files.

Lemma idle_session_writes_no_file_witness :
  let st := NewShellCast plainEnv timestampedConfig emptyWorld in
  files (snd (snd (ExecuteCommand (rt := plainRuntime) plainEnv [Stdout] "echo hello" st))) =
    files (snd st) /\
  files (snd (snd (ExecuteSplitCommands (rt := plainRuntime) plainEnv [(0%nat, Stdout)]
                     ["echo A"; "echo B"] st))) = files (snd st).
Proof.
  exact (idle_session_writes_no_file (rt := plainRuntime) plainEnv [Stdout]
           [(0%nat, Stdout)] "echo hello" ["echo A"; "echo B"]
           (fst (NewShellCast plainEnv timestampedConfig emptyWorld))
           (snd (NewShellCast plainEnv timestampedConfig emptyWorld)) eq_refl eq_refl).
Defined.


Lemma ExecuteCommand_spawn_failure_witness :
  let st := NewShellCast plainEnv GetDefaultConfig emptyWorld in
  let r := ExecuteCommand (rt := plainRuntime) plainEnv [] "nosuch -x" st in
  fst (snd r) = fst st /\
  files (snd (snd r)) = files (snd st) /\
  ticks (snd (snd r)) = ticks (snd st) /\
  reaped (snd (snd r)) = reaped (snd st).
Proof.
  exact (ExecuteCommand_spawn_failure (rt := plainRuntime) plainEnv [] "nosuch -x"
           (fst (NewShellCast plainEnv GetDefaultConfig emptyWorld))
           (snd (NewShellCast plainEnv GetDefaultConfig emptyWorld))
           (ErrStartingCommand "executable file not found in $PATH") eq_refl eq_refl).
Defined.

Lemma joined_arguments_are_cut_again_witness :
  let st := NewShellCast plainEnv GetDefaultConfig emptyWorld in
  started (snd (snd (ExecuteCommand (rt := plainRuntime) plainEnv []
                       (String.concat " " ["echo"; "a b"]) st))) =
    ["echo"; "a"; "b"] :: started (snd st).
Proof.
  exact (joined_arguments_are_cut_again (rt := plainRuntime) plainEnv [] ["echo"; "a b"]
           (fst (NewShellCast plainEnv GetDefaultConfig emptyWorld))
           (snd (NewShellCast plainEnv GetDefaultConfig emptyWorld))
           ltac:(discriminate) eq_refl eq_refl).
Defined.

(** ** Further properties: the capture file and the recording *)

Section sink_files.
Context {rt : Runtime}.











End sink_files.


(** ** Further properties: starting and stopping *)

Section lifecycle_more.
Context {rt : Runtime}.

(** X10: when [StartStreaming] succeeds the session is streaming, the
    buffer is untouched and the capture file holds exactly the buffer; the
    capture file is the configured one, or the temporary file when none is
    configured; and the one program started is the configured FFmpeg, or
    "ffmpeg" when none is configured, with [-i] and the path of the
    capture file among its arguments and the RTMP URL as the last. *)
Theorem StartStreaming_seeds_capture_file (e : Env) (s : ShellCast) (w : World) :
  fst (StartStreaming e (s, w)) = None ->
  let s' := fst (snd (StartStreaming e (s, w))) in
  let w' := snd (snd (StartStreaming e (s, w))) in
  streaming s' = true /\
  outputBuffer s' = outputBuffer s /\
  files w' !! OutputFile (config s') = Some (outputBuffer s) /\
  (if String.eqb (OutputFile (config s)) "" then createTemp e = Ok (OutputFile (config s'))
   else OutputFile (config s') = OutputFile (config s)) /\
  exists rest,
    started w' =
      ((if String.eqb (FFmpegPath (config s)) "" then "ffmpeg" else FFmpegPath (config s))
       :: "-re" :: "-f" :: "concat" :: "-safe" :: "0"
       :: "-i" :: OutputFile (config s') :: rest) :: started w /\
    last rest = Some (RTMPUrl (config s)).
Proof.
  unfold StartStreaming. destruct (streaming s); [done |].
  destruct (String.eqb (OutputFile (config s)) "").
  - destruct (createTemp e) as [name|]; [| done]. cbn.
    destruct (writeFile e name); [done |].
    match goal with |- context [start e ?a] => destruct (start e a) end; [| done].
    cbn. intros _. rewrite lookup_insert_eq. repeat split. eauto.
  - destruct (writeFile e (OutputFile (config s))); [done |].
    match goal with |- context [start e ?a] => destruct (start e a) end; [| done].
    cbn. intros _. rewrite lookup_insert_eq. repeat split. eauto.
Qed.

(** X11: with no capture file configured, a [StartStreaming] that succeeds
    followed by [StopStreaming] gives the session back as it was: the
    temporary file is removed and its name forgotten, so the next
    [StartStreaming] asks for a new one. *)
Theorem streaming_round_trip (e : Env) (s : ShellCast) (w : World) (name : string) :
  streamProc s = None ->
  OutputFile (config s) = "" ->
  fst (StartStreaming e (s, w)) = None ->
  createTemp e = Ok name ->
  name <> "" ->
  (forall proc, kill e proc = None) ->
  remove e name = None ->
  let r := StopStreaming e (snd (StartStreaming e (s, w))) in
  fst r = None /\
  fst (snd r) = s /\
  files (snd (snd r)) = delete name (files w).
Proof.
  intros Hproc Hfile Hok Htmp Hname Hkill Hrm. revert Hok. unfold StartStreaming.
  destruct (streaming s) eqn:Hs; [done |]. rewrite Hfile, Htmp. cbn.
  destruct (writeFile e name); [done |].
  match goal with |- context [start e ?a] => destruct (start e a) as [cmd|] end; [| done].
  intros _. cbn. rewrite Hkill. apply String.eqb_neq in Hname. rewrite Hname. cbn.
  rewrite Hrm. repeat split.
  - destruct s as [c b st sp rc rp t], c. cbn in *. by subst.
  - cbn. by rewrite !delete_insert_eq.
Qed.

Lemma Cleanup_flags_off (e : Env) (st : State) :
  handlesTrack (fst st) ->
  (forall proc, kill e proc = None) ->
  openAppend e (recordPath (fst st)) = None ->
  streaming (fst (Cleanup e st)) = false /\ recording (fst (Cleanup e st)) = false.
Proof.
  destruct st as [s w]. cbn [fst]. intros [Hproc _] Hkill Happ.
  assert (forall s1 w1, recordPath s1 = recordPath s -> streaming s1 = false ->
            let st' := if recording s1 then snd (StopRecording e (s1, w1)) else (s1, w1) in
            streaming (fst st') = false /\ recording (fst st') = false) as Hrec.
  { intros s1 w1 Hpath Hs1. destruct (recording s1) eqn:Hr; [| done].
    unfold StopRecording, appendToFile. rewrite Hr, Hpath, Happ. by cbn. }
  unfold Cleanup. cbn [fst]. destruct (streaming s) eqn:Hs.
  - unfold StopStreaming. rewrite Hs.
    destruct (streamProc s) as [proc|] eqn:Hp; [| by destruct (proj2 Hproc)].
    rewrite Hkill. cbn [snd].
    destruct (negb (String.eqb (OutputFile (config (setStream s None false))) ""));
      cbn [snd fst]; by apply Hrec.
  - by apply Hrec.
Qed.

(** X12: from a session whose flags go with its handles, on a system
    where the stream process can be killed and the recording appended
    to, [Cleanup] leaves the session neither streaming nor recording, and
    a second [Cleanup] changes nothing. *)
Theorem Cleanup_stops_everything (e : Env) (s : ShellCast) (w : World) :
  handlesTrack s ->
  (forall proc, kill e proc = None) ->
  openAppend e (recordPath s) = None ->
  let st' := Cleanup e (s, w) in
  streaming (fst st') = false /\
  recording (fst st') = false /\
  Cleanup e st' = st'.
Proof.
  intros Htrack Hkill Happ.
  destruct (Cleanup_flags_off e (s, w) Htrack Hkill Happ) as [Hs Hr].
  cbn zeta. split; [done |]. split; [done |].
  destruct (Cleanup e (s, w)) as [s1 w1]. unfold Cleanup. cbn [fst] in *.
  rewrite Hs. cbn [fst]. by rewrite Hr.
Qed.


End lifecycle_more.

Lemma StartStreaming_seeds_capture_file_witness :
  let s := fst (NewShellCast plainEnv timestampedConfig emptyWorld) in
  let w := snd (NewShellCast plainEnv timestampedConfig emptyWorld) in
  let s' := fst (snd (StartStreaming plainEnv (s, w))) in
  let w' := snd (snd (StartStreaming plainEnv (s, w))) in
  streaming s' = true /\
  outputBuffer s' = outputBuffer s /\
  files w' !! OutputFile (config s') = Some (outputBuffer s) /\
  (if String.eqb (OutputFile (config s)) "" then
     createTemp plainEnv = Ok (OutputFile (config s'))
   else OutputFile (config s') = OutputFile (config s)) /\
  exists rest,
    started w' =
      ((if String.eqb (FFmpegPath (config s)) "" then "ffmpeg" else FFmpegPath (config s))
       :: "-re" :: "-f" :: "concat" :: "-safe" :: "0"
       :: "-i" :: OutputFile (config s') :: rest) :: started w /\
    last rest = Some (RTMPUrl (config s)).
Proof.
  exact (StartStreaming_seeds_capture_file plainEnv
           (fst (NewShellCast plainEnv timestampedConfig emptyWorld))
           (snd (NewShellCast plainEnv timestampedConfig emptyWorld)) eq_refl).
Defined.

Lemma streaming_round_trip_witness :
  let s := fst (NewShellCast plainEnv timestampedConfig emptyWorld) in
  let w := snd (NewShellCast plainEnv timestampedConfig emptyWorld) in
  let r := StopStreaming plainEnv (snd (StartStreaming plainEnv (s, w))) in
  fst r = None /\
  fst (snd r) = s /\
  files (snd (snd r)) = delete "/tmp/shellcast_1.txt" (files w).
Proof.
  apply (streaming_round_trip plainEnv
           (fst (NewShellCast plainEnv timestampedConfig emptyWorld))
           (snd (NewShellCast plainEnv timestampedConfig emptyWorld))
           "/tmp/shellcast_1.txt").
  - reflexivity.
  - reflexivity.
  - reflexivity.
  - reflexivity.
  - discriminate.
  - reflexivity.
  - reflexivity.
Defined.

Lemma Cleanup_stops_everything_witness :
  let st' := Cleanup (rt := plainRuntime) plainEnv recordingSession in
  streaming (fst st') = false /\
  recording (fst st') = false /\
  Cleanup (rt := plainRuntime) plainEnv st' = st'.
Proof.
  apply (Cleanup_stops_everything (rt := plainRuntime) plainEnv
           (fst recordingSession) (snd recordingSession)).
  - split; [split |].
    + intros H. exfalso. apply H. reflexivity.
    + discriminate.
    + intros _. vm_compute. discriminate.
  - reflexivity.
  - reflexivity.
Defined.


(** ** Further properties: main.go and interactive.go *)

Lemma sessionAdvances_refl (s : ShellCast) : sessionAdvances s s.
Proof. split; [done |]. exists "". by rewrite append_nil_r. Qed.

Lemma sessionAdvances_trans (s1 s2 s3 : ShellCast) :
  sessionAdvances s1 s2 -> sessionAdvances s2 s3 -> sessionAdvances s1 s3.
Proof.
  intros [Ht1 [g1 Hb1]] [Ht2 [g2 Hb2]]. split; [congruence |].
  exists (g1 +:+ g2). by rewrite Hb2, Hb1, append_assoc.
Qed.

Section frontend_properties.
Context {rt : Runtime} {host : Host}.

Lemma lifecycle_advances (e : Env) (st : State) :
  sessionAdvances (fst st) (fst (snd (StartStreaming e st))) /\
  sessionAdvances (fst st) (fst (snd (StopStreaming e st))) /\
  sessionAdvances (fst st) (fst (snd (StartRecording e st))) /\
  sessionAdvances (fst st) (fst (snd (StopRecording e st))).
Proof.
  destruct st as [s w].
  assert (forall s', startTime s' = startTime s -> outputBuffer s' = outputBuffer s ->
            sessionAdvances s s') as Hsame.
  { intros s' Ht Hb. split; [done |]. exists "". by rewrite append_nil_r. }
  unfold StartStreaming, StopStreaming, StartRecording, StopRecording. cbn [fst].
  repeat split; repeat case_match; simplify_eq; cbn [fst snd]; by apply Hsame.
Qed.

Lemma dispatch_tracks (t : Turn) (cmd args input : string) (st : State) :
  (forall dir file, file <> "" -> filepathJoin dir file <> "") ->
  handlesTrack (fst st) -> handlesTrack (fst (dispatch t cmd args input st)).
Proof.
  intros Hjoin Htrack. destruct st as [s w]. unfold dispatch.
  repeat case_match; simplify_eq; cbn [fst snd]; try done.
  - by apply (StartStreaming_tracks (tEnv t) (s, w)).
  - by apply (StopStreaming_tracks (tEnv t) (s, w)).
  - by apply (StartRecording_tracks (tEnv t) (s, w)).
  - by apply (StopRecording_tracks (tEnv t) (s, w)).
  - eapply onlyBufferGrows_tracks; [apply ExecuteSplitCommands_grows | done].
  - eapply onlyBufferGrows_tracks; [apply ExecuteCommand_grows | done].
Qed.

Lemma dispatch_advances (t : Turn) (cmd args input : string) (st : State) :
  sessionAdvances (fst st) (fst (dispatch t cmd args input st)).
Proof.
  destruct (lifecycle_advances (tEnv t) st) as (H1 & H2 & H3 & H4).
  destruct st as [s w]. unfold dispatch.
  repeat case_match; simplify_eq; cbn [fst snd]; try done;
    first [ apply onlyBufferGrows_advances, ExecuteSplitCommands_grows
          | apply onlyBufferGrows_advances, ExecuteCommand_grows
          | split; [done | exists ""; by rewrite append_nil_r] ].
Qed.

(** What every pass of the loop keeps, the loop keeps. *)
Lemma RunInteractiveMode_keeps (P : ShellCast -> Prop) (turn : nat -> Turn) (rest : string) :
  (forall t cmd args input st, P (fst st) -> P (fst (dispatch t cmd args input st))) ->
  (forall s c, P s -> P (setConfig s (setRTMPUrl (config s) c))) ->
  forall events n st, P (fst st) -> P (fst (RunInteractiveMode turn n events rest st)).
Proof.
  intros Hdispatch Hurl events.
  assert (forall m events n st, (length events <= m)%nat -> P (fst st) ->
            P (fst (RunInteractiveMode turn n events rest st))) as Hall.
  { induction m as [|m IH]; intros evs n st Hlen HP.
    - destruct evs; [done | cbn in Hlen; lia].
    - destruct evs as [|ev evs]; [done |]. cbn [length] in Hlen.
      cbn [RunInteractiveMode]. destruct ev as [text | partial]; [| apply IH; [lia | done]].
      destruct (String.eqb (TrimSpace (text +:+ nl)) ""); [apply IH; [lia | done] |].
      destruct (SplitN2 (TrimSpace (text +:+ nl))) as [part0 part1].
      destruct (String.eqb (ToLower part0) "exit" || String.eqb (ToLower part0) "quit");
        [done |].
      destruct (String.eqb (ToLower part0) "stream"
                && String.eqb (RTMPUrl (config (fst st))) "").
      + destruct evs as [|ev' evs'].
        * destruct (String.eqb (TrimSpace rest) ""); [done |].
          apply Hdispatch. cbn [fst]. by apply Hurl.
        * cbn [length] in Hlen.
          destruct (String.eqb _ ""); [apply IH; [lia | done] |].
          apply IH; [lia |]. apply Hdispatch. cbn [fst]. by apply Hurl.
      + apply IH; [lia |]. by apply Hdispatch. }
  intros n st. by apply (Hall (length events)).
Qed.

Lemma RunInteractiveMode_tracks (turn : nat -> Turn) (n : nat) (events : list readEvent)
    (rest : string) (st : State) :
  (forall dir file, file <> "" -> filepathJoin dir file <> "") ->
  handlesTrack (fst st) ->
  handlesTrack (fst (RunInteractiveMode turn n events rest st)).
Proof.
  intros Hjoin. apply RunInteractiveMode_keeps.
  - intros t cmd args input st'. by apply dispatch_tracks.
  - done.
Qed.

(** X14: whatever is typed during an interactive session, and whatever
    the commands do, after it the stream process is set exactly when the
    streaming flag is, and a recording session has a recording path, if it
    was so before: the invariant of the five life cycle calls is also one
    of the command loop, with its commands, its split runs and its
    changes to the configuration. *)
Theorem interactive_session_tracks_handles (turn : nat -> Turn) (n : nat)
    (events : list readEvent) (rest : string) (st : State) :
  (forall dir file, file <> "" -> filepathJoin dir file <> "") ->
  handlesTrack (fst st) ->
  handlesTrack (fst (RunInteractiveMode turn n events rest st)).
Proof. apply RunInteractiveMode_tracks. Qed.

(** X15: nothing typed during an interactive session resets the start
    time or takes anything out of the buffer: after the session the start
    time is the one before it and the buffer starts with the buffer
    before it. *)
Theorem interactive_session_only_appends (turn : nat -> Turn) (n : nat)
    (events : list readEvent) (rest : string) (st : State) :
  startTime (fst (RunInteractiveMode turn n events rest st)) = startTime (fst st) /\
  exists grown,
    outputBuffer (fst (RunInteractiveMode turn n events rest st)) =
      outputBuffer (fst st) +:+ grown.
Proof.
  apply (RunInteractiveMode_keeps (sessionAdvances (fst st)) turn rest).
  - intros t cmd args input st' H.
    eapply sessionAdvances_trans; [exact H | apply dispatch_advances].
  - intros s c H. eapply sessionAdvances_trans; [exact H |].
    split; [done |]. exists "". by rewrite append_nil_r.
  - apply sessionAdvances_refl.
Qed.

(** X16: the screen size [main] hands to [NewShellCast] is the one of
    [-size] when both its numbers are positive and 1280x720 otherwise;
    it is positive in both dimensions, and the one of the configuration
    file is never used. *)
Theorem buildConfig_screen_size (f : flag.t) (w : World) :
  (ScreenWidth (buildConfig f w), ScreenHeight (buildConfig f w)) = screenSizeOf f /\
  0 < ScreenWidth (buildConfig f w) /\
  0 < ScreenHeight (buildConfig f w).
Proof.
  assert ((ScreenWidth (buildConfig f w), ScreenHeight (buildConfig f w)) = screenSizeOf f)
    as Hsize.
  { unfold buildConfig, screenSizeOf, ApplyTheme.
    destruct (fst (SscanfSize (flag.screenSize f))) as [width height].
    destruct ((width <=? 0) || (height <=? 0));
      repeat match goal with
             | |- context [if ?b then _ else _] => destruct b
             | |- context [match ?o with Some _ => _ | None => _ end] => destruct o
             end; reflexivity. }
  split; [done |]. unfold screenSizeOf in Hsize.
  destruct (fst (SscanfSize (flag.screenSize f))) as [width height].
  destruct ((width <=? 0) || (height <=? 0)) eqn:Hpos; injection Hsize as -> ->; [lia |].
  apply orb_false_iff in Hpos as [?%Z.leb_gt ?%Z.leb_gt]. lia.
Qed.

(** X17: when [-theme] is given, the name it gives becomes the theme name
    of the configuration whether or not there is such a preset; the colours
    are those of the preset when there is one, whatever [-font-color] and
    [-bg-color] say, and those the configuration has without [-theme] when
    there is none. *)
Theorem buildConfig_theme (f : flag.t) (w : World) :
  isSet f "theme" = true ->
  let c := buildConfig f w in
  ThemeName c = flag.themeName f /\
  match GetThemePresets !! flag.themeName f with
  | Some theme => FontColor c = tpFontColor theme /\
                  BackgroundColor c = tpBackgroundColor theme
  | None => FontColor c = FontColor (buildConfig (unsetFlag f "theme") w) /\
            BackgroundColor c = BackgroundColor (buildConfig (unsetFlag f "theme") w)
  end.
Proof.
  intros Hset. cbv zeta.
  assert (forall name, name <> "theme" -> isSet (unsetFlag f "theme") name = isSet f name)
    as Hother.
  { intros name Hne. unfold isSet, unsetFlag. cbn. by rewrite lookup_delete_ne. }
  assert (isSet (unsetFlag f "theme") "theme" = false) as Hunset.
  { unfold isSet, unsetFlag. cbn. by rewrite lookup_delete_eq. }
  unfold buildConfig. rewrite Hset, Hunset, !Hother by discriminate.
  cbn [unsetFlag flag.screenSize flag.configFile flag.rtmpUrl flag.ffmpegPath
       flag.fontSize flag.fontColor flag.bgColor flag.showTimestamp
       flag.timestampFormat flag.recordPath flag.themeName].
  unfold ApplyTheme.
  destruct (fst (SscanfSize (flag.screenSize f))) as [width height].
  destruct ((width <=? 0) || (height <=? 0));
    by destruct (GetThemePresets !! flag.themeName f).
Qed.

(** X18: when [main] reaches its last statement on a system where the
    stream process can be killed and files appended to, it leaves the
    session neither streaming nor recording, in every mode and whatever
    the commands did. *)
Theorem runMain_returns_idle (turn : nat -> Turn) (f : flag.t) (events : list readEvent)
    (rest : string) (w : World) (st : State) :
  (forall dir file, file <> "" -> filepathJoin dir file <> "") ->
  (forall proc, kill (tEnv (turn 5%nat)) proc = None) ->
  (forall path, openAppend (tEnv (turn 5%nat)) path = None) ->
  runMain turn f events rest w = Returned st ->
  streaming (fst st) = false /\ recording (fst st) = false.
Proof.
  intros Hjoin Hkill Happ. unfold runMain.
  destruct (flag.listThemes f); [done |].
  set (shellcast0 := NewShellCast (tEnv (turn 0%nat)) (buildConfig f w) w).
  assert (handlesTrack (fst shellcast0)) as H0.
  { subst shellcast0. unfold handlesTrack. cbn. split; [split |]; done. }
  set (shellcast := if flag.record f then _ else shellcast0).
  assert (handlesTrack (fst shellcast)) as H1.
  { subst shellcast. destruct (flag.record f); [| done]. by apply StartRecording_tracks. }
  clearbody shellcast. clear H0.
  assert (forall st', handlesTrack (fst st') ->
            Returned (Cleanup (tEnv (turn 5%nat)) st') = Returned st ->
            streaming (fst st) = false /\ recording (fst st) = false) as Hend.
  { intros st' Htrack [= <-]. by apply Cleanup_flags_off. }
  destruct (flag.interactive f).
  { apply Hend. by apply RunInteractiveMode_tracks. }
  destruct (flag.splitMode f && negb (length (flag.args f) =? 0)%nat).
  { destruct shellcast as [s0 w0].
    pose proof (ExecuteSplitCommands_grows (tEnv (turn 3%nat)) (tSplit (turn 3%nat))
                  (flag.args f) s0 w0) as Hgrows.
    destruct (ExecuteSplitCommands _ _ _ _) as [[err|] st']; [done |].
    apply Hend. eapply onlyBufferGrows_tracks; [exact Hgrows | done]. }
  destruct (negb (length (flag.args f) =? 0)%nat); [| by apply Hend].
  set (streamed := if negb (String.eqb (RTMPUrl (buildConfig f w)) "") then _ else _).
  assert (handlesTrack (fst (snd streamed))) as H2.
  { subst streamed. destruct (negb _); [by apply StartStreaming_tracks | done]. }
  destruct streamed as [[err|] [s2 w2]]; [done |]. cbn [fst snd] in H2.
  pose proof (ExecuteCommand_grows (tEnv (turn 3%nat)) (tSched (turn 3%nat))
                (String.concat " " (flag.args f)) s2 w2) as Hgrows.
  destruct (ExecuteCommand _ _ _ _) as [err [s3 w3]]. cbn [fst snd] in *.
  pose proof (onlyBufferGrows_tracks _ _ Hgrows H2) as H3.
  destruct (streaming s3); apply Hend; [| done].
  by apply (StopStreaming_tracks (tEnv (turn 4%nat)) (s3, w3)).
Qed.

(** X19: [main] ends in [log.Fatalf] only when [StartStreaming] fails in
    the single command mode: never in the interactive mode and never in
    the split mode, whose [ExecuteSplitCommands] is only called with a
    command and so returns no error.  The session is then left as
    [StartStreaming] left it, [Cleanup] not having run: a recording
    started by [-record] is still on. *)
Theorem runMain_fatal_only_from_stream (turn : nat -> Turn) (f : flag.t)
    (events : list readEvent) (rest : string) (w : World) (st : State) :
  runMain turn f events rest w = Fatal st ->
  let created := NewShellCast (tEnv (turn 0%nat)) (buildConfig f w) w in
  let begun :=
    if flag.record f then snd (StartRecording (tEnv (turn 1%nat)) created) else created in
  flag.interactive f = false /\
  flag.args f <> [] /\
  flag.splitMode f = false /\
  RTMPUrl (buildConfig f w) <> "" /\
  fst (StartStreaming (tEnv (turn 2%nat)) begun) <> None /\
  st = snd (StartStreaming (tEnv (turn 2%nat)) begun) /\
  recording (fst st) = recording (fst begun).
Proof.
  unfold runMain. destruct (flag.listThemes f); [done |]. cbv zeta.
  set (created := NewShellCast (tEnv (turn 0%nat)) (buildConfig f w) w).
  set (begun := if flag.record f then _ else created). clearbody begun.
  destruct (flag.interactive f); [done |].
  destruct (flag.args f) as [|arg args] eqn:Hargs.
  - rewrite andb_false_r. done.
  - cbn [length Nat.eqb negb]. rewrite andb_true_r.
    destruct (flag.splitMode f).
    + destruct begun as [s0 w0]. unfold ExecuteSplitCommands.
      destruct (spawnAll _ _ _ _) as [rs w1]. by destruct (runSplit _ _ _ _).
    + destruct (String.eqb (RTMPUrl (buildConfig f w)) "") eqn:Hurl; cbn [negb].
      * by destruct (ExecuteCommand _ _ _ _) as [? [? ?]].
      * apply String.eqb_neq in Hurl.
        assert (recording (fst (snd (StartStreaming (tEnv (turn 2%nat)) begun))) =
                recording (fst begun)) as Hrec.
        { destruct begun as [s0 w0]. unfold StartStreaming. cbn [fst].
          repeat case_match; simplify_eq; done. }
        destruct (StartStreaming (tEnv (turn 2%nat)) begun) as [[err|] st2] eqn:Hstream.
        -- intros [= <-]. done.
        -- by destruct (ExecuteCommand _ _ _ _) as [? [? ?]].
Qed.

End frontend_properties.

Lemma interactive_session_tracks_handles_witness :
  handlesTrack
    (fst (RunInteractiveMode (rt := plainRuntime) (host := plainHost) (fun _ => plainTurn) 0
            [Line "record"; Line "echo hi"; Line "stream"; Line "rtmp://host/live"] ""
            (NewShellCast plainEnv GetDefaultConfig emptyWorld))).
Proof.
  apply (interactive_session_tracks_handles (rt := plainRuntime) (host := plainHost)).
  - intros dir file _. destruct dir; discriminate.
  - split; [split |].
    + intros H. exfalso. apply H. reflexivity.
    + discriminate.
    + discriminate.
Defined.

Lemma buildConfig_theme_witness :
  let c := buildConfig (host := plainHost) themedFlags emptyWorld in
  ThemeName c = flag.themeName themedFlags /\
  match GetThemePresets !! flag.themeName themedFlags with
  | Some theme => FontColor c = tpFontColor theme /\
                  BackgroundColor c = tpBackgroundColor theme
  | None =>
      FontColor c =
        FontColor (buildConfig (host := plainHost) (unsetFlag themedFlags "theme") emptyWorld) /\
      BackgroundColor c =
        BackgroundColor
          (buildConfig (host := plainHost) (unsetFlag themedFlags "theme") emptyWorld)
  end.
Proof.
  exact (buildConfig_theme (host := plainHost) themedFlags emptyWorld eq_refl).
Defined.

Lemma runMain_returns_idle_witness :
  let st :=
    Cleanup (rt := plainRuntime) plainEnv
      (snd (ExecuteCommand (rt := plainRuntime) plainEnv [] "echo hi"
              (snd (StartRecording (rt := plainRuntime) plainEnv
                      (NewShellCast plainEnv GetDefaultConfig emptyWorld))))) in
  streaming (fst st) = false /\ recording (fst st) = false.
Proof.
  apply (runMain_returns_idle (rt := plainRuntime) (host := plainHost)
           (fun _ => plainTurn) recordFlags [] "" emptyWorld).
  - intros dir file _. destruct dir; discriminate.
  - reflexivity.
  - reflexivity.
  - vm_compute. reflexivity.
Defined.

Lemma runMain_fatal_only_from_stream_witness :
  let f := failingStreamFlags in
  let created := NewShellCast plainEnv (buildConfig (host := plainHost) f emptyWorld) emptyWorld in
  let begun :=
    if flag.record f then snd (StartRecording (rt := plainRuntime) plainEnv created)
    else created in
  let st := snd (StartStreaming plainEnv begun) in
  flag.interactive f = false /\
  flag.args f <> [] /\
  flag.splitMode f = false /\
  RTMPUrl (buildConfig (host := plainHost) f emptyWorld) <> "" /\
  fst (StartStreaming plainEnv begun) <> None /\
  st = snd (StartStreaming plainEnv begun) /\
  recording (fst st) = recording (fst begun).
Proof.
  apply (runMain_fatal_only_from_stream (rt := plainRuntime) (host := plainHost)
           (fun _ => plainTurn) failingStreamFlags [] "" emptyWorld).
  vm_compute. reflexivity.
Defined.

(** ** Further properties: the buffer as a copy of the output *)

Lemma splitOn_single (sep : ascii) (s : string) : splitOn sep s = [""] -> s = "".
Proof.
  destruct s as [|c s]; [done |]. cbn [splitOn].
  pose proof (splitOn_nonempty sep s) as Hne.
  destruct (Ascii.eqb c sep); [| by destruct (splitOn sep s)].
  intros [= H]. by rewrite H in Hne.
Qed.

Lemma terminated_streamLines (data : string) :
  terminated (streamLines data) = closeLine data.
Proof.
  unfold streamLines. induction data as [|c data IH]; [reflexivity |].
  cbn [splitOn]. pose proof (splitOn_nonempty "010"%char data) as Hne.
  pose proof (splitOn_single "010"%char data) as Hsingle.
  destruct (Ascii.eqb c "010"%char) eqn:Hc.
  - apply Ascii.eqb_eq in Hc as ->.
    destruct (splitOn "010"%char data) as [|p ps] eqn:Hsplit; [done |].
    change (lineRuns ("" :: p :: ps)) with ("" :: lineRuns (p :: ps)).
    cbn [terminated]. rewrite IH. by destruct data.
  - destruct (splitOn "010"%char data) as [|p ps] eqn:Hsplit; [done |].
    destruct ps as [|q qs].
    + cbn [lineRuns] in *. cbn [String.eqb]. cbn [terminated]. rewrite append_nil_r.
      destruct data as [|d data].
      * injection Hsplit as <-. cbn. rewrite Hc. by rewrite append_cons.
      * change (closeLine (String c (String d data)))
          with (String c (closeLine (String d data))).
        rewrite <- IH. destruct (String.eqb p "") eqn:Hp.
        -- apply String.eqb_eq in Hp as ->. by specialize (Hsingle eq_refl).
        -- cbn [terminated]. by rewrite append_nil_r, append_cons.
    + change (lineRuns (String c p :: q :: qs)) with (String c p :: lineRuns (q :: qs)).
      change (lineRuns (p :: q :: qs)) with (p :: lineRuns (q :: qs)) in IH.
      cbn [terminated] in *. rewrite append_cons, IH.
      destruct data as [|d data]; [done |]. reflexivity.
Qed.

Lemma dropCR_noCR (l : string) : noCR l = true -> dropCR l = l.
Proof.
  induction l as [|c l IH]; [done |]. cbn [noCR]. intros [Hc Hl]%andb_true_iff.
  destruct l as [|d l].
  - cbn [dropCR]. by apply negb_true_iff in Hc as ->.
  - change (dropCR (String c (String d l))) with (String c (dropCR (String d l))).
    by rewrite IH.
Qed.

Lemma noCR_splitOn (sep : ascii) (data : string) :
  noCR data = true -> Forall (fun l => noCR l = true) (splitOn sep data).
Proof.
  induction data as [|c data IH]; [by repeat constructor |].
  cbn [noCR splitOn]. intros [Hc Hl]%andb_true_iff. specialize (IH Hl).
  destruct (Ascii.eqb c sep); [by constructor |].
  destruct IH as [|p ps Hp Hps]; [by repeat constructor; cbn; rewrite Hc |].
  constructor; [cbn; by rewrite Hc, Hp | done].
Qed.

Lemma noCR_lineRuns (segs : list string) :
  Forall (fun l => noCR l = true) segs -> Forall (fun l => noCR l = true) (lineRuns segs).
Proof.
  induction 1 as [|l rest Hl Hrest IH]; [constructor |].
  destruct rest as [|r rest].
  - cbn. destruct (String.eqb l ""); by repeat constructor.
  - change (lineRuns (l :: r :: rest)) with (l :: lineRuns (r :: rest)). by constructor.
Qed.

Lemma linesWritten_noCR (data : string) :
  noCR data = true -> linesWritten data = streamLines data.
Proof.
  intros H. unfold linesWritten, streamLines.
  pose proof (noCR_lineRuns _ (noCR_splitOn "010"%char data H)) as Hall.
  induction Hall as [|l ls Hl _ IH]; [done |]. cbn [map]. by rewrite IH, dropCR_noCR.
Qed.

Lemma linesOf_only_Stdout (fls : list (Origin * string)) :
  linesOf Stderr fls = [] -> map snd fls = linesOf Stdout fls.
Proof.
  induction fls as [|[o l] fls IH]; [done |]. destruct o.
  - rewrite linesOf_cons_same, linesOf_cons_other by discriminate.
    intros H. cbn [map snd]. by rewrite IH.
  - by rewrite linesOf_cons_same.
Qed.

Section plain_copy.
Context {rt : Runtime}.

Lemma formats_plain (c : Config) (lines fls : list string) :
  ShowTimestamp c = false -> Forall2 (formats c) lines fls -> fls = lines.
Proof.
  intros Hts. induction 1 as [|l fl lines fls [t Hfl] _ IH]; [done |].
  unfold formatLine in Hfl. rewrite Hts in Hfl. by subst.
Qed.

(** X20: with timestamps off, a command that writes nothing to its
    standard error, no carriage return and no line of [MaxScanTokenSize]
    bytes or more has its standard output copied into the buffer byte for
    byte, but for a newline added after a last line that lacks one;
    whatever its exit status. *)
Theorem ExecuteCommand_copies_plain_output (e : Env) (sched : list Origin)
    (command : string) (cmd : Child) (s : ShellCast) (w : World) :
  stdoutPipe e (Split command) = None ->
  stderrPipe e (Split command) = None ->
  start e (Split command) = Ok cmd ->
  ShowTimestamp (config s) = false ->
  childStderr cmd = "" ->
  shortLines (childStdout cmd) ->
  noCR (childStdout cmd) = true ->
  outputBuffer (fst (snd (ExecuteCommand e sched command (s, w)))) =
    outputBuffer s +:+ closeLine (childStdout cmd).
Proof.
  intros Hout Herr Hstart Hts Hquiet Hshort Hcr. unfold ExecuteCommand.
  destruct (Split_nonempty command) as (name & args & Hsplit).
  rewrite Hsplit in *. rewrite Hout, Herr, Hstart.
  destruct (runDrains_owes e sched (newDrain "" (childStdout cmd))
              (newDrain "" (childStderr cmd)) s (logStart (name :: args) w))
    as (fls & Ho & He & Hbuf).
  destruct (runDrains e sched _ _ _) as [s2 w2]. cbn [fst snd] in *.
  rewrite Hbuf. f_equal.
  apply (formats_plain (config s) (Scan (childStdout cmd))) in Ho; [| done].
  apply (formats_plain (config s) (Scan (childStderr cmd))) in He; [| done].
  rewrite Hquiet in He. rewrite (linesOf_only_Stdout fls He), Ho.
  by rewrite Scan_short, linesWritten_noCR, terminated_streamLines.
Qed.

End plain_copy.

Lemma ExecuteCommand_copies_plain_output_witness :
  let st := NewShellCast plainEnv GetDefaultConfig emptyWorld in
  outputBuffer (fst (snd (ExecuteCommand (rt := plainRuntime) plainEnv [Stderr; Stdout]
                            "echo hello world" st))) =
    outputBuffer (fst st) +:+ closeLine ("hello world" +:+ nl).
Proof.
  apply (ExecuteCommand_copies_plain_output (rt := plainRuntime) plainEnv [Stderr; Stdout]
           "echo hello world" (mkChild 11%nat ("hello world" +:+ nl) "" 0)
           (fst (NewShellCast plainEnv GetDefaultConfig emptyWorld))
           (snd (NewShellCast plainEnv GetDefaultConfig emptyWorld))).
  - reflexivity.
  - reflexivity.
  - reflexivity.
  - reflexivity.
  - reflexivity.
  - repeat constructor.
  - reflexivity.
Defined.

(** ** Further properties: the arguments of [split] *)

Lemma substring_all (x y : string) : substring 0 (String.length x) (x +:+ y) = x.
Proof.
  induction x as [|c x IH]; [by destruct y |].
  rewrite append_cons. cbn. by rewrite IH.
Qed.

Lemma substring_full (y : string) : substring 0 (String.length y) y = y.
Proof. induction y as [|c y IH]; [done |]. cbn. by rewrite IH. Qed.

Lemma substring_rest (x y : string) :
  substring (String.length x) (String.length y) (x +:+ y) = y.
Proof.
  induction x as [|c x IH].
  - change ("" +:+ y) with y. apply substring_full.
  - rewrite append_cons. cbn. apply IH.
Qed.

Lemma length_append (x y : string) :
  String.length (x +:+ y) = (String.length x + String.length y)%nat.
Proof. induction x as [|c x IH]; [done |]. rewrite append_cons. cbn. by rewrite IH. Qed.

Lemma TrimPrefix_quote (x : string) : TrimPrefix (dquote +:+ x) dquote = x.
Proof.
  change (dquote +:+ x) with (String "034"%char x). unfold TrimPrefix. cbn.
  replace (String.prefix "" x) with true by by destruct x.
  rewrite Nat.sub_0_r. apply substring_full.
Qed.

Lemma TrimSuffix_quote (x : string) : TrimSuffix (x +:+ dquote) dquote = x.
Proof.
  unfold TrimSuffix. rewrite length_append.
  pose proof (substring_rest x dquote) as Hrest.
  change (String.length dquote) with 1%nat in *.
  replace (String.length x + 1 - 1)%nat with (String.length x) by lia.
  replace (1 <=? String.length x + 1)%nat with true by (symmetry; apply Nat.leb_le; lia).
  rewrite Hrest, String.eqb_refl. cbn [andb].
  apply substring_all.
Qed.

Lemma noQuote_first (c : ascii) (a : string) :
  noQuote (String c a) = true -> c <> "034"%char /\ noQuote a = true.
Proof.
  cbn [noQuote]. intros [Hc Ha]%andb_true_iff. split; [| done].
  apply negb_true_iff in Hc. by apply Ascii.eqb_neq in Hc.
Qed.

Lemma prefix_quote_other (s : string) (c : ascii) (a : string) :
  c <> "034"%char -> String.prefix (String "034"%char s) (String c a) = false.
Proof.
  intros Hc. cbn [String.prefix]. by destruct (ascii_dec "034"%char c); [subst |].
Qed.

Lemma TrimPrefix_plain (a : string) : noQuote a = true -> TrimPrefix a dquote = a.
Proof.
  intros Ha. unfold TrimPrefix. destruct a as [|c a]; [done |].
  apply noQuote_first in Ha as [Hc _]. unfold dquote. by rewrite prefix_quote_other.
Qed.

Lemma last_byte_plain (a : string) :
  noQuote a = true -> substring (String.length a - 1) 1 a <> dquote.
Proof.
  induction a as [|c a IH]; [done |]. intros Ha.
  apply noQuote_first in Ha as [Hc Ha]. cbn [String.length]. rewrite Nat.sub_succ, Nat.sub_0_r.
  destruct a as [|d a].
  - cbn. intros [= ?]. done.
  - specialize (IH Ha). cbn [String.length] in *. rewrite Nat.sub_succ, Nat.sub_0_r in IH.
    done.
Qed.

Lemma TrimSuffix_plain (a : string) : noQuote a = true -> TrimSuffix a dquote = a.
Proof.
  intros Ha. unfold TrimSuffix. cbn [String.length dquote].
  apply last_byte_plain in Ha. apply String.eqb_neq in Ha. rewrite Ha.
  by rewrite andb_false_r.
Qed.

Lemma splitSep_nonempty (sep : string) (k : nat) (s : string) : splitSep sep k s <> [].
Proof.
  revert k. induction s as [|c s IH]; intros k; [done |]. cbn [splitSep].
  destruct k; [| apply IH]. destruct (String.prefix sep _); [done |].
  specialize (IH 0%nat). by destruct (splitSep sep 0 s).
Qed.

Lemma splitSep_plain (a : string) : noQuote a = true -> splitSep quoteSpaceQuote 0 a = [a].
Proof.
  induction a as [|c a IH]; [done |]. intros Ha.
  apply noQuote_first in Ha as [Hc Ha]. cbn [splitSep].
  change quoteSpaceQuote with (String "034"%char (" " +:+ dquote)) at 1.
  rewrite prefix_quote_other by done. by rewrite IH.
Qed.

Lemma splitSep_last (a : string) :
  noQuote a = true -> splitSep quoteSpaceQuote 0 (a +:+ dquote) = [a +:+ dquote].
Proof.
  induction a as [|c a IH]; [done |]. intros Ha.
  apply noQuote_first in Ha as [Hc Ha]. rewrite append_cons. cbn [splitSep].
  change quoteSpaceQuote with (String "034"%char (" " +:+ dquote)) at 1.
  rewrite prefix_quote_other by done. by rewrite IH.
Qed.

Lemma splitSep_piece (a t : string) :
  noQuote a = true ->
  splitSep quoteSpaceQuote 0 (a +:+ quoteSpaceQuote +:+ t) = a :: splitSep quoteSpaceQuote 0 t.
Proof.
  induction a as [|c a IH].
  { intros _. change ("" +:+ quoteSpaceQuote +:+ t)
      with (String "034"%char (String " "%char (String "034"%char t))).
    change quoteSpaceQuote with (String "034"%char (String " "%char (String "034"%char "")))
      at 1.
    cbn [splitSep]. replace (String.prefix _ _) with true by by destruct t.
    reflexivity. }
  intros Ha.
  apply noQuote_first in Ha as [Hc Ha]. rewrite append_cons. cbn [splitSep].
  change quoteSpaceQuote with (String "034"%char (" " +:+ dquote)) at 1.
  rewrite prefix_quote_other by done. by rewrite IH.
Qed.

Lemma quotedTail_cons (c x : string) (rest : list string) :
  quotedTail (c :: x :: rest) = c +:+ quoteSpaceQuote +:+ quotedTail (x :: rest).
Proof.
  change (quotedTail (c :: x :: rest))
    with (c +:+ dquote +:+ " " +:+ dquote +:+ quotedTail (x :: rest)).
  reflexivity.
Qed.

Lemma splitSep_quotedTail (cs : list string) (c : string) :
  Forall (fun c => noQuote c = true) (cs ++ [c]) ->
  splitSep quoteSpaceQuote 0 (quotedTail (cs ++ [c])) = (cs ++ [c +:+ dquote])%list.
Proof.
  induction cs as [|c1 cs IH]; intros Hall.
  - apply splitSep_last. by inversion Hall.
  - inversion Hall as [|? ? H1 Hrest]; subst. specialize (IH Hrest).
    cbn [app]. destruct (cs ++ [c])%list as [|x rest] eqn:Hl; [by destruct cs |].
    by rewrite quotedTail_cons, splitSep_piece, IH.
Qed.

Lemma quotedTail_head (c : string) (rest : list string) :
  exists tail, quotedTail (c :: rest) = c +:+ String "034"%char tail.
Proof.
  destruct rest as [|x rest]; [by exists "" |].
  by exists (" " +:+ dquote +:+ quotedTail (x :: rest)).
Qed.

Lemma no_joint_at_start (c tail : string) :
  noQuote c = true -> c <> " " ->
  String.prefix (" " +:+ dquote) (c +:+ String "034"%char tail) = false.
Proof.
  intros Hc Hne. change (" " +:+ dquote) with (String " "%char (String "034"%char "")).
  destruct c as [|d c]; [done |]. rewrite append_cons. cbn [String.prefix].
  destruct (ascii_dec " "%char d) as [<- |]; [| done].
  apply noQuote_first in Hc as [_ Hc].
  destruct c as [|d' c]; [done |]. rewrite append_cons.
  apply noQuote_first in Hc as [Hd _]. by apply prefix_quote_other.
Qed.

Lemma splitSep_quoted (cs : list string) (c : string) :
  Forall (fun c => noQuote c = true) (cs ++ [c]) ->
  (cs ++ [c])%list !! 0%nat <> Some " " ->
  splitSep quoteSpaceQuote 0 (quoted (cs ++ [c])) =
    match (cs ++ [c +:+ dquote])%list with
    | p :: ps => (dquote +:+ p) :: ps
    | [] => []
    end.
Proof.
  intros Hall Hfirst. pose proof (splitSep_quotedTail cs c Hall) as Htail.
  unfold quoted. change (dquote +:+ ?t) with (String "034"%char t).
  cbn [splitSep].
  change quoteSpaceQuote with (String "034"%char (" " +:+ dquote)) at 1.
  cbn [String.prefix]. destruct (ascii_dec "034"%char "034"%char); [| done].
  assert (String.prefix (" " +:+ dquote) (quotedTail (cs ++ [c])) = false) as ->.
  { destruct (cs ++ [c])%list as [|c1 rest] eqn:Hl; [by destruct cs |].
    destruct (quotedTail_head c1 rest) as [tail ->].
    inversion Hall; subst. apply no_joint_at_start; [done |]. cbn in Hfirst. congruence. }
  rewrite Htail. by destruct cs.
Qed.

(** X21: the [split] case of the interactive mode gets back the commands
    typed each in double quotes with one space between them, when no
    command has a double quote in it and the first is not a single
    space. *)
Theorem splitArgs_quoted (commands : list string) :
  commands <> [] ->
  Forall (fun c => noQuote c = true) commands ->
  commands !! 0%nat <> Some " " ->
  splitArgs (quoted commands) = commands.
Proof.
  intros Hne Hall Hfirst.
  destruct commands as [|c cs _] using rev_ind; [done |]. clear Hne.
  unfold splitArgs.
  change (String "034"%char "" +:+ " " +:+ String "034"%char "") with quoteSpaceQuote.
  change (String "034"%char "") with dquote.
  rewrite splitSep_quoted by done. destruct cs as [|c1 mid].
  - cbn [app lookup list_lookup insert list_insert default from_option id length Nat.sub].
    rewrite TrimPrefix_quote. cbn [lookup list_lookup insert list_insert default from_option id].
    by rewrite TrimSuffix_quote.
  - cbn [app]. cbn [lookup list_lookup insert list_insert default from_option id].
    rewrite TrimPrefix_quote.
    cbn [length]. rewrite Nat.sub_succ, Nat.sub_0_r, length_app. cbn [length].
    rewrite Nat.add_1_r, lookup_cons.
    change (<[S (length mid) := ?v]> (c1 :: ?l)) with (c1 :: <[length mid := v]> l).
    rewrite (list_lookup_middle mid [] (c +:+ dquote) (length mid) eq_refl).
    cbn [default from_option id]. rewrite TrimSuffix_quote.
    rewrite insert_app_r_alt by lia. by rewrite Nat.sub_diag.
Qed.

(** X22: what is typed after [split] without any double quote is taken
    as one command, spaces and all. *)
Theorem splitArgs_unquoted (args : string) :
  noQuote args = true -> splitArgs args = [args].
Proof.
  intros Hplain. unfold splitArgs.
  change (String "034"%char "" +:+ " " +:+ String "034"%char "") with quoteSpaceQuote.
  change (String "034"%char "") with dquote.
  rewrite splitSep_plain by done.
  cbn [lookup list_lookup insert list_insert default from_option id length Nat.sub].
  rewrite TrimPrefix_plain by done. cbn [lookup list_lookup insert list_insert default from_option id].
  by rewrite TrimSuffix_plain.
Qed.

Lemma splitArgs_quoted_witness :
  splitArgs (quoted ["ls -la"; "top -n 1"]) = ["ls -la"; "top -n 1"].
Proof.
  apply (splitArgs_quoted ["ls -la"; "top -n 1"]).
  - discriminate.
  - repeat constructor.
  - discriminate.
Defined.

Lemma splitArgs_unquoted_witness : splitArgs "ls top" = ["ls top"].
Proof. exact (splitArgs_unquoted "ls top" eq_refl). Defined.
